(** * aws-ebs-csi-driver-operator: deployment hooks, resource gate, config mirror

    A shallow embedding of [pkg/operator/starter.go].  A deployment hook of
    the Go code takes a pointer to the operator spec and a pointer to the
    deployment, mutates the deployment and returns an error; here a hook is
    a function from the deployment before the call to the deployment after
    the call together with the returned error.  None of the hooks reads the
    operator spec, so it is left out. *)

From Stdlib Require Import ZArith Lia.
From stdpp Require Import base option list strings gmap.

Open Scope string_scope.
Open Scope list_scope.

(** ** Constants of the package *)

Definition defaultNamespace : string := "openshift-cluster-csi-drivers".
Definition infrastructureName : string := "cluster".
Definition cloudConfigNamespace : string := "openshift-config-managed".
Definition cloudConfigName : string := "kube-cloud-config".
Definition caBundleKey : string := "ca-bundle.pem".
Definition hypershiftPriorityClass : string := "hypershift-control-plane".

(** ** Errors

    [fmt.Errorf] with and without a wrapped error, and the two kinds of
    error a lister hands back.  [IsNotFound] follows
    [apierrors.IsNotFound], which looks through wrapping. *)

Inductive error : Type :=
| StatusNotFound (name : string)
| StatusError (msg : string)
| Errorf (msg : string)
| ErrorfW (msg : string) (wrapped : error).

Fixpoint IsNotFound (err : error) : bool :=
  match err with
  | StatusNotFound _ => true
  | ErrorfW _ e => IsNotFound e
  | _ => false
  end.

(** ** Kubernetes objects, restricted to the fields the hooks touch *)

Module EnvVar.
Record t := mk { Name : string; Value : string }.
End EnvVar.

Module VolumeMount.
Record t := mk { Name : string; MountPath : string; ReadOnly : bool }.
End VolumeMount.

Inductive StorageMedium := StorageMediumDefault | StorageMediumMemory.

(** [corev1.VolumeSource] is a struct of pointers, one per kind of source.
    The hooks build the [Secret], [EmptyDir] and [ConfigMap] members;
    [Projected] stands for every member they never write. *)
Module VolumeSource.
Record t := mk {
  Secret : option string;            (* SecretVolumeSource.SecretName *)
  EmptyDir : option StorageMedium;   (* EmptyDirVolumeSource.Medium *)
  ConfigMap : option string;         (* LocalObjectReference.Name *)
  Projected : option string
}.
End VolumeSource.

Module Volume.
Record t := mk { Name : string; VolumeSource : VolumeSource.t }.
Definition setVolumeSource (vs : VolumeSource.t) (v : t) : t := mk (Name v) vs.
End Volume.

(** [resource.MustParse] of a literal; the parsed quantity is kept as the
    literal it was parsed from. *)
Inductive Quantity := MustParse (s : string).

Module Container.
Record t := mk {
  Name : string;
  Image : string;
  ImagePullPolicy : string;
  Command : list string;
  Args : list string;
  Env : list EnvVar.t;
  VolumeMounts : list VolumeMount.t;
  Requests : gmap string Quantity      (* Resources.Requests *)
}.
Definition appendArg (a : string) (c : t) : t :=
  mk (Name c) (Image c) (ImagePullPolicy c) (Command c) (Args c ++ [a])
     (Env c) (VolumeMounts c) (Requests c).
Definition appendEnv (e : EnvVar.t) (c : t) : t :=
  mk (Name c) (Image c) (ImagePullPolicy c) (Command c) (Args c)
     (Env c ++ [e]) (VolumeMounts c) (Requests c).
Definition appendVolumeMount (m : VolumeMount.t) (c : t) : t :=
  mk (Name c) (Image c) (ImagePullPolicy c) (Command c) (Args c)
     (Env c) (VolumeMounts c ++ [m]) (Requests c).
End Container.

Module PodSpec.
Record t := mk {
  Volumes : list Volume.t;
  Containers : list Container.t;
  PriorityClassName : string
}.
Definition setVolumes (vs : list Volume.t) (p : t) : t :=
  mk vs (Containers p) (PriorityClassName p).
Definition setContainers (cs : list Container.t) (p : t) : t :=
  mk (Volumes p) cs (PriorityClassName p).
Definition setPriorityClassName (s : string) (p : t) : t :=
  mk (Volumes p) (Containers p) s.
End PodSpec.

(** [Spec] is [deployment.Spec.Template.Spec]; [Replicas] is the pointer
    to an int32 in [deployment.Spec] (nil is [None]). *)
Module Deployment.
Record t := mk {
  Namespace : string;
  Replicas : option Z;
  Spec : PodSpec.t
}.
Definition setNamespace (ns : string) (d : t) : t := mk ns (Replicas d) (Spec d).
Definition setReplicas (r : option Z) (d : t) : t := mk (Namespace d) r (Spec d).
Definition setSpec (p : PodSpec.t) (d : t) : t := mk (Namespace d) (Replicas d) p.
End Deployment.

Definition DeploymentHookFunc : Type := Deployment.t -> Deployment.t * option error.

(** ** Loops over a slice by index

    [for i := range s { ... s[i] ... }] evaluates [len(s)] once and visits
    the indices [0 .. len(s)-1] in order. *)

Section Range.
Context {A : Type}.

(** A body that rewrites [s[i]] in place ([continue] is the identity). *)
Definition rangeStep (body : A -> A) (s : list A) (i : nat) : list A :=
  match s !! i with
  | Some x => <[i := body x]> s
  | None => s
  end.

Definition rangeUpdate (body : A -> A) (s : list A) : list A :=
  foldl (rangeStep body) s (seq 0 (length s)).

(** A body that rewrites the first [s[i]] satisfying [hit] and then
    returns from the enclosing function: [Some] of the slice after the
    rewrite when the loop returned, [None] when it ran off the end. *)
Fixpoint rangeFirstFrom (hit : A -> bool) (body : A -> A)
    (s : list A) (indices : list nat) : option (list A) :=
  match indices with
  | [] => None
  | i :: rest =>
      match s !! i with
      | Some x =>
          if hit x then Some (<[i := body x]> s)
          else rangeFirstFrom hit body s rest
      | None => rangeFirstFrom hit body s rest
      end
  end.

Definition rangeFirst (hit : A -> bool) (body : A -> A) (s : list A)
    : option (list A) :=
  rangeFirstFrom hit body s (seq 0 (length s)).

(** [for i := range s { if hit(s[i]) { s = append(s[:i], s[i+1:]...); break } }] *)
Fixpoint rangeDeleteFrom (hit : A -> bool) (s : list A) (indices : list nat)
    : list A :=
  match indices with
  | [] => s
  | i :: rest =>
      match s !! i with
      | Some x =>
          if hit x then take i s ++ drop (S i) s
          else rangeDeleteFrom hit s rest
      | None => rangeDeleteFrom hit s rest
      end
  end.

Definition rangeDelete (hit : A -> bool) (s : list A) : list A :=
  rangeDeleteFrom hit s (seq 0 (length s)).
End Range.

(** ** The hosted-topology hooks *)

Definition hostedKubeconfigVolume : Volume.t :=
  Volume.mk "hosted-kubeconfig"
    (VolumeSource.mk (Some "admin-kubeconfig") None None None).

Definition memoryEmptyDir : VolumeSource.t :=
  VolumeSource.mk None (Some StorageMediumMemory) None None.

Definition boundSaTokenBody (v : Volume.t) : Volume.t :=
  if negb (Volume.Name v =? "bound-sa-token") then v
  else Volume.setVolumeSource memoryEmptyDir v.

Definition isMetricsServingCert (v : Volume.t) : bool :=
  Volume.Name v =? "metrics-serving-cert".

(** The first [switch]: the cases with an empty body drop the container. *)
Definition isKubeRbacProxy (name : string) : bool :=
  (name =? "driver-kube-rbac-proxy") || (name =? "provisioner-kube-rbac-proxy")
  || (name =? "attacher-kube-rbac-proxy") || (name =? "resizer-kube-rbac-proxy")
  || (name =? "snapshotter-kube-rbac-proxy").

Definition filterStep (filtered : list Container.t) (c : Container.t)
    : list Container.t :=
  if isKubeRbacProxy (Container.Name c) then filtered else filtered ++ [c].

(** The second [switch]: the cases with an empty body fall out of the
    switch into the appends, the default [continue]s. *)
Definition isCSISidecar (name : string) : bool :=
  (name =? "csi-provisioner") || (name =? "csi-attacher")
  || (name =? "csi-snapshotter") || (name =? "csi-resizer").

Definition kubeconfigArg : string := "--kubeconfig=$(KUBECONFIG)".
Definition kubeconfigEnv : EnvVar.t :=
  EnvVar.mk "KUBECONFIG" "/etc/hosted-kubernetes/kubeconfig".
Definition kubeconfigMount : VolumeMount.t :=
  VolumeMount.mk "hosted-kubeconfig" "/etc/hosted-kubernetes" true.

Definition injectKubeconfig (c : Container.t) : Container.t :=
  Container.appendVolumeMount kubeconfigMount
    (Container.appendEnv kubeconfigEnv
      (Container.appendArg kubeconfigArg c)).

Definition kubeconfigBody (c : Container.t) : Container.t :=
  if isCSISidecar (Container.Name c) then injectKubeconfig c else c.

Definition tokenMinter (hypershiftImage : string) : Container.t :=
  Container.mk "token-minter" hypershiftImage "IfNotPresent"
    ["/usr/bin/control-plane-operator"; "token-minter"]
    ["--service-account-namespace=openshift-cluster-csi-drivers";
     "--service-account-name=aws-ebs-csi-driver-controller-sa";
     "--token-audience=openshift";
     "--token-file=/var/run/secrets/openshift/serviceaccount/token";
     "--kubeconfig=/etc/hosted-kubernetes/kubeconfig"]
    []
    [VolumeMount.mk "bound-sa-token" "/var/run/secrets/openshift/serviceaccount" false;
     VolumeMount.mk "hosted-kubeconfig" "/etc/hosted-kubernetes" true]
    (<["cpu" := MustParse "10m"]> (<["memory" := MustParse "10Mi"]> ∅)).

(** The volume part of the hook, in source order: append the kubeconfig
    volume, turn [bound-sa-token] into an in-memory empty dir, drop the
    first [metrics-serving-cert]. *)
Definition hypershiftVolumes (vols : list Volume.t) : list Volume.t :=
  let vols := vols ++ [hostedKubeconfigVolume] in
  let vols := rangeUpdate boundSaTokenBody vols in
  rangeDelete isMetricsServingCert vols.

(** The container part: filter, inject, append the token minter. *)
Definition hypershiftContainers (hypershiftImage : string)
    (containers : list Container.t) : list Container.t :=
  let filtered := foldl filterStep [] containers in
  let containers := rangeUpdate kubeconfigBody filtered in
  containers ++ [tokenMinter hypershiftImage].

Definition withHypershiftDeploymentHook (isHypershift : bool)
    (hypershiftImage : string) : DeploymentHookFunc :=
  fun deployment =>
    if negb isHypershift then (deployment, None)
    else
      let podSpec :=
        PodSpec.setPriorityClassName hypershiftPriorityClass
          (Deployment.Spec deployment) in
      let podSpec :=
        PodSpec.setVolumes (hypershiftVolumes (PodSpec.Volumes podSpec)) podSpec in
      let podSpec :=
        PodSpec.setContainers
          (hypershiftContainers hypershiftImage (PodSpec.Containers podSpec))
          podSpec in
      (Deployment.setSpec podSpec deployment, None).

(** Off hosted topology the hook is library-go's [WithReplicasHook], which
    is taken as the argument [replicasHook]. *)
Definition withHypershiftReplicasHook (isHypershift : bool)
    (replicasHook : DeploymentHookFunc) : DeploymentHookFunc :=
  if negb isHypershift then replicasHook
  else fun deployment => (Deployment.setReplicas (Some 1%Z) deployment, None).

Definition withNamespaceDeploymentHook (namespace : string) : DeploymentHookFunc :=
  fun deployment => (Deployment.setNamespace namespace deployment, None).

(** ** Cached cluster objects and their listers

    A lister's [Get] returns an object or an error, never both. *)

Module ConfigMap.
Record t := mk { Data : gmap string string }.
End ConfigMap.

Definition ConfigMapNamespaceLister : Type := string -> ConfigMap.t + error.

Module AWSServiceEndpoint.
Record t := mk { Name : string; URL : string }.
End AWSServiceEndpoint.

Module AWSResourceTag.
Record t := mk { Key : string; Value : string }.
End AWSResourceTag.

Module AWSPlatformStatus.
Record t := mk {
  Region : string;
  ServiceEndpoints : list AWSServiceEndpoint.t;
  ResourceTags : list AWSResourceTag.t
}.
End AWSPlatformStatus.

Module PlatformStatus.
Record t := mk { AWS : option AWSPlatformStatus.t }.
End PlatformStatus.

(** [PlatformStatus] is [infra.Status.PlatformStatus]. *)
Module Infrastructure.
Record t := mk { PlatformStatus : option PlatformStatus.t }.
End Infrastructure.

Definition InfrastructureLister : Type := string -> Infrastructure.t + error.

(** The guard shared by the three infrastructure hooks:
    [PlatformStatus == nil || PlatformStatus.AWS == nil]. *)
Definition awsPlatformStatus (infra : Infrastructure.t)
    : option AWSPlatformStatus.t :=
  match Infrastructure.PlatformStatus infra with
  | None => None
  | Some ps => PlatformStatus.AWS ps
  end.

Definition isCSIDriver (c : Container.t) : bool :=
  Container.Name c =? "csi-driver".

Definition setDeploymentVolumes (vs : list Volume.t) (d : Deployment.t)
    : Deployment.t :=
  Deployment.setSpec (PodSpec.setVolumes vs (Deployment.Spec d)) d.

Definition setDeploymentContainers (cs : list Container.t) (d : Deployment.t)
    : Deployment.t :=
  Deployment.setSpec (PodSpec.setContainers cs (Deployment.Spec d)) d.

Definition deploymentVolumes (d : Deployment.t) : list Volume.t :=
  PodSpec.Volumes (Deployment.Spec d).

Definition deploymentContainers (d : Deployment.t) : list Container.t :=
  PodSpec.Containers (Deployment.Spec d).

(** ** The custom CA bundle hook *)

Definition caBundleConfigName (isHypershift : bool) : string :=
  if isHypershift then "user-ca-bundle" else cloudConfigName.

Definition customAWSCABundle (isHypershift : bool)
    (cloudConfigLister : ConfigMapNamespaceLister) : string * option error :=
  let configName := caBundleConfigName isHypershift in
  match cloudConfigLister configName with
  | inr err =>
      if IsNotFound err then ("", None)
      else ("", Some (ErrorfW ("failed to get the " +:+ configName +:+ " ConfigMap") err))
  | inl cloudConfigCM =>
      match ConfigMap.Data cloudConfigCM !! caBundleKey with
      | None => ("", None)
      | Some _ => (configName, None)
      end
  end.

Definition caBundleVolume (configName : string) : Volume.t :=
  Volume.mk "ca-bundle" (VolumeSource.mk None None (Some configName) None).

Definition caBundleEnv : EnvVar.t := EnvVar.mk "AWS_CA_BUNDLE" "/etc/ca/ca-bundle.pem".
Definition caBundleMount : VolumeMount.t := VolumeMount.mk "ca-bundle" "/etc/ca" true.

Definition caBundleBody (c : Container.t) : Container.t :=
  Container.appendVolumeMount caBundleMount (Container.appendEnv caBundleEnv c).

Definition missingCSIDriver : error :=
  Errorf "could not use custom CA bundle because the csi-driver container is missing from the deployment".

Definition withCustomAWSCABundle (isHypershift : bool)
    (cloudConfigLister : ConfigMapNamespaceLister) : DeploymentHookFunc :=
  fun deployment =>
    match customAWSCABundle isHypershift cloudConfigLister with
    | (_, Some err) =>
        (deployment,
         Some (ErrorfW "could not determine if a custom CA bundle is in use" err))
    | (configName, None) =>
        if configName =? "" then (deployment, None)
        else
          let deployment :=
            setDeploymentVolumes
              (deploymentVolumes deployment ++ [caBundleVolume configName])
              deployment in
          match rangeFirst isCSIDriver caBundleBody (deploymentContainers deployment) with
          | Some containers => (setDeploymentContainers containers deployment, None)
          | None => (deployment, Some missingCSIDriver)
          end
    end.

(** ** The infrastructure hooks *)

Definition ec2Step (ec2EndPoint : string) (serviceEndPoint : AWSServiceEndpoint.t)
    : string :=
  if AWSServiceEndpoint.Name serviceEndPoint =? "ec2"
  then AWSServiceEndpoint.URL serviceEndPoint
  else ec2EndPoint.

Definition withCustomEndPoint (infraLister : InfrastructureLister)
    : DeploymentHookFunc :=
  fun deployment =>
    match infraLister infrastructureName with
    | inr err => (deployment, Some err)
    | inl infra =>
        match awsPlatformStatus infra with
        | None => (deployment, None)
        | Some aws =>
            let ec2EndPoint :=
              foldl ec2Step "" (AWSPlatformStatus.ServiceEndpoints aws) in
            if ec2EndPoint =? "" then (deployment, None)
            else
              match rangeFirst isCSIDriver
                      (Container.appendEnv (EnvVar.mk "AWS_EC2_ENDPOINT" ec2EndPoint))
                      (deploymentContainers deployment) with
              | Some containers => (setDeploymentContainers containers deployment, None)
              | None => (deployment, None)
              end
        end
    end.

(** [strings.Join]. *)
Fixpoint Join (elems : list string) (sep : string) : string :=
  match elems with
  | [] => ""
  | [e] => e
  | e :: rest => e +:+ sep +:+ Join rest sep
  end.

Definition tagPairStep (tagPairs : list string) (userTag : AWSResourceTag.t)
    : list string :=
  tagPairs ++ [AWSResourceTag.Key userTag +:+ "=" +:+ AWSResourceTag.Value userTag].

Definition tagsArgument (userTags : list AWSResourceTag.t) : string :=
  "--extra-tags=" +:+ Join (foldl tagPairStep [] userTags) ",".

Definition onCSIDriver (f : Container.t -> Container.t) (c : Container.t)
    : Container.t :=
  if negb (isCSIDriver c) then c else f c.

Definition withCustomTags (infraLister : InfrastructureLister)
    : DeploymentHookFunc :=
  fun deployment =>
    match infraLister infrastructureName with
    | inr err => (deployment, Some err)
    | inl infra =>
        match awsPlatformStatus infra with
        | None => (deployment, None)
        | Some aws =>
            let userTags := AWSPlatformStatus.ResourceTags aws in
            if (length userTags =? 0)%nat then (deployment, None)
            else
              (setDeploymentContainers
                 (rangeUpdate (onCSIDriver (Container.appendArg (tagsArgument userTags)))
                    (deploymentContainers deployment))
                 deployment, None)
        end
    end.

Definition withAWSRegion (infraLister : InfrastructureLister)
    : DeploymentHookFunc :=
  fun deployment =>
    match infraLister infrastructureName with
    | inr err => (deployment, Some err)
    | inl infra =>
        match awsPlatformStatus infra with
        | None => (deployment, None)
        | Some aws =>
            let region := AWSPlatformStatus.Region aws in
            if region =? "" then (deployment, None)
            else
              (setDeploymentContainers
                 (rangeUpdate
                    (onCSIDriver (Container.appendEnv (EnvVar.mk "AWS_REGION" region)))
                    (deploymentContainers deployment))
                 deployment, None)
        end
    end.

(** ** The conditional resource gate

    The two closures handed to [WithConditionalStaticResourcesController].
    The first asks the API server for the CRD and looks only at the error;
    the second ignores everything.  [probe] is the outcome of
    [CustomResourceDefinitions().Get] by name in the state in which the
    predicate runs. *)

Definition volumeSnapshotClassCRD : string :=
  "volumesnapshotclasses.snapshot.storage.k8s.io".

Section Gate.
Context {CRD : Type}.

Definition shouldInstall (probe : string -> CRD + error) : bool :=
  match probe volumeSnapshotClassCRD with
  | inl _ => true
  | inr _ => false
  end.

Definition shouldDelete (probe : string -> CRD + error) : bool := false.
End Gate.

Inductive GateDecision := Install | Remove | NoOp.

(** Modelled from the spec: the controller that turns the two predicates
    into a decision is library code outside [pkg/operator].  The spec gives
    [evaluate() -> {Install, Remove, NoOp}] with Remove taking precedence
    over Install when both predicates hold. *)
Definition evaluate (install delete : bool) : GateDecision :=
  if delete then Remove else if install then Install else NoOp.

Definition volumeSnapshotClassGate {CRD : Type} (probe : string -> CRD + error)
    : GateDecision :=
  evaluate (shouldInstall probe) (shouldDelete probe).

(** ** The config mirror

    [newCustomAWSBundleSyncer] builds the two locations and registers the
    pair with a resource sync controller. *)

Module ResourceLocation.
Record t := mk { Namespace : string; Name : string }.
Definition key (l : t) : string * string := (Namespace l, Name l).
End ResourceLocation.

(** The config maps of the cluster, by namespace and name. *)
Abbreviation Cluster := (gmap (string * string) ConfigMap.t).

(** Modelled from the spec: the resource sync controller
    ([NewResourceSyncController], [SyncConfigMap] and its sync pass) is
    library code outside [pkg/operator].  The spec gives a mirror entry as
    source (namespace, name) to destination (namespace, name), and a pass
    that applies the source's content to the destination when the source
    exists and deletes the destination when it does not, source not-found
    being no error. *)
Module ResourceSyncController.
Record t := mk {
  (* destination, source *)
  configMapSyncRules : list (ResourceLocation.t * ResourceLocation.t)
}.

Definition NewResourceSyncController : t := mk [].

Definition SyncConfigMap (destination source : ResourceLocation.t) (c : t)
    : t * option error :=
  (mk (configMapSyncRules c ++ [(destination, source)]), None).

Definition syncRule (cluster : Cluster)
    (rule : ResourceLocation.t * ResourceLocation.t) : Cluster :=
  match cluster !! ResourceLocation.key (snd rule) with
  | Some cm => <[ResourceLocation.key (fst rule) := cm]> cluster
  | None => delete (ResourceLocation.key (fst rule)) cluster
  end.

Definition Sync (c : t) (cluster : Cluster) : Cluster :=
  foldl syncRule cluster (configMapSyncRules c).
End ResourceSyncController.

Definition srcConfigMap : ResourceLocation.t :=
  ResourceLocation.mk cloudConfigNamespace cloudConfigName.

Definition dstConfigMap (destinationNamespace : string) : ResourceLocation.t :=
  ResourceLocation.mk destinationNamespace cloudConfigName.

Definition newCustomAWSBundleSyncer (destinationNamespace : string)
    : option ResourceSyncController.t * option error :=
  let certController := ResourceSyncController.NewResourceSyncController in
  match ResourceSyncController.SyncConfigMap
          (dstConfigMap destinationNamespace) srcConfigMap certController with
  | (_, Some err) => (None, Some err)
  | (certController, None) => (Some certController, None)
  end.

(** What can happen to the mirrored object between and during passes: the
    source is created or updated, the source is deleted, the controller
    runs a pass. *)
Inductive MirrorEvent :=
| SourceApplied (cm : ConfigMap.t)
| SourceDeleted
| SyncPass.

Definition isSourceApplied (e : MirrorEvent) : bool :=
  match e with SourceApplied _ => true | _ => false end.

Definition mirrorStep (c : ResourceSyncController.t) (cluster : Cluster)
    (e : MirrorEvent) : Cluster :=
  match e with
  | SourceApplied cm => <[ResourceLocation.key srcConfigMap := cm]> cluster
  | SourceDeleted => delete (ResourceLocation.key srcConfigMap) cluster
  | SyncPass => ResourceSyncController.Sync c cluster
  end.

Definition mirrorRun (c : ResourceSyncController.t) (cluster : Cluster)
    (trace : list MirrorEvent) : Cluster :=
  foldl (mirrorStep c) cluster trace.

(** ** What the first-match loops compute, by recursion on the slice

    The counterparts of [rangeFirst] and [rangeDelete] that the lemmas
    below relate them to. *)

Section First.
Context {A : Type}.

Fixpoint updateFirst (hit : A -> bool) (body : A -> A) (s : list A)
    : option (list A) :=
  match s with
  | [] => None
  | x :: s' =>
      if hit x then Some (body x :: s')
      else (x ::.) <$> updateFirst hit body s'
  end.

Fixpoint deleteFirst (hit : A -> bool) (s : list A) : list A :=
  match s with
  | [] => []
  | x :: s' => if hit x then s' else x :: deleteFirst hit s'
  end.
End First.

(** ** Predicates of the statements and sample objects *)

Definition keptContainer (c : Container.t) : Prop :=
  isKubeRbacProxy (Container.Name c) = false.

#[local] Instance keptContainer_dec (c : Container.t) : Decision (keptContainer c) :=
  decide (isKubeRbacProxy (Container.Name c) = false).

Definition hasContainer (name : string) (d : Deployment.t) : Prop :=
  exists c, c ∈ deploymentContainers d /\ Container.Name c = name.

Definition hasVolume (name : string) (d : Deployment.t) : Prop :=
  exists v, v ∈ deploymentVolumes d /\ Volume.Name v = name.

Definition named (name : string) : Container.t :=
  Container.mk name "" "" [] [] [] [] ∅.

Definition projected (name : string) : Volume.t :=
  Volume.mk name (VolumeSource.mk None None None (Some name)).

Definition hostedBase : Deployment.t :=
  Deployment.mk "" None
    (PodSpec.mk
       [projected "bound-sa-token"; projected "metrics-serving-cert"]
       [named "csi-driver"; named "driver-kube-rbac-proxy"; named "csi-provisioner"]
       "system-cluster-critical").

Definition metricsServingCerts (vols : list Volume.t) : nat :=
  length (filter (fun v => Volume.Name v = "metrics-serving-cert") vols).

Definition twoCerts : Deployment.t :=
  Deployment.mk "" None
    (PodSpec.mk
       [projected "bound-sa-token"; projected "metrics-serving-cert";
        projected "socket-dir"; projected "metrics-serving-cert"]
       [named "csi-driver"] "").

Definition standaloneBase : Deployment.t :=
  Deployment.mk "" None
    (PodSpec.mk [projected "socket-dir"]
       [named "csi-provisioner"; named "csi-driver"; named "csi-driver"] "").

Definition bundleLister (name : string) : ConfigMap.t + error :=
  if name =? "kube-cloud-config"
  then inl (ConfigMap.mk (<["ca-bundle.pem" := "PEM"]> ∅))
  else inr (StatusNotFound name).

Definition noDriver : Deployment.t :=
  Deployment.mk "" None
    (PodSpec.mk [projected "socket-dir"] [named "csi-provisioner"] "").

Definition bareMetalLister (name : string) : Infrastructure.t + error :=
  if name =? "cluster"
  then inl (Infrastructure.mk (Some (PlatformStatus.mk None)))
  else inr (StatusNotFound name).

Definition occurrences (a : string) (args : list string) : nat :=
  length (filter (fun x => x = a) args).

(** An argument of the form [--extra-tags=...]. *)
Definition isExtraTags (a : string) : bool := String.prefix "--extra-tags=" a.

Definition usEast1 (tags : list AWSResourceTag.t) (name : string)
    : Infrastructure.t + error :=
  if name =? "cluster"
  then inl (Infrastructure.mk
              (Some (PlatformStatus.mk
                       (Some (AWSPlatformStatus.mk "us-east-1" [] tags)))))
  else inr (StatusNotFound name).

Definition twoTags : list AWSResourceTag.t :=
  [AWSResourceTag.mk "k1" "v1"; AWSResourceTag.mk "k2" "v2"].

(** A deployment whose driver already carries the tags argument. *)
Definition taggedBase : Deployment.t :=
  Deployment.mk "" None
    (PodSpec.mk []
       [Container.mk "csi-driver" "" "" [] ["--extra-tags=k1=v1,k2=v2"] [] [] ∅]
       "").

Definition noSnapshotCRD (name : string) : unit + error :=
  inr (StatusNotFound name).

Definition mirrorSrc : string * string := ResourceLocation.key srcConfigMap.

Definition mirrorDst (destinationNamespace : string) : string * string :=
  ResourceLocation.key (dstConfigMap destinationNamespace).

Definition mirrorRules (destinationNamespace : string) : ResourceSyncController.t :=
  ResourceSyncController.mk [(dstConfigMap destinationNamespace, srcConfigMap)].

(** ** Static assets with the namespace filled in *)

(** [bytes.ReplaceAll] for a non-empty [old], the only way the package
    calls it: scan left to right; where [old] starts, emit [new] and step
    over [old]; elsewhere copy one byte.  [skip] counts the bytes of a
    matched [old] still to step over. *)
Fixpoint replaceFrom (old new : string) (skip : nat) (s : string) : string :=
  match s with
  | EmptyString => EmptyString
  | String c s' =>
      match skip with
      | S k => replaceFrom old new k s'
      | O =>
          if String.prefix old s
          then new +:+ replaceFrom old new (String.length old - 1) s'
          else String c (replaceFrom old new 0 s')
      end
  end.

Definition ReplaceAll (s old new : string) : string := replaceFrom old new 0 s.

(** A call either returns or panics. *)
Inductive Outcome (A : Type) : Type :=
| Returned (a : A)
| Panicked (err : error).
Arguments Returned {A} a.
Arguments Panicked {A} err.

(** [assets.ReadFile] belongs to the embedded assets package and is taken
    as the argument [ReadFile]. *)
Definition assetWithNamespaceFunc (ReadFile : string -> string + error)
    (namespace : string) (name : string) : Outcome (string * option error) :=
  match ReadFile name with
  | inr err => Panicked err
  | inl content => Returned (ReplaceAll content "${NAMESPACE}" namespace, None)
  end.

(** ** Further predicates and sample objects *)

(** The byte [$], with which the placeholder starts. *)
Definition dollar : Ascii.ascii := Ascii.ascii_of_nat 36.

Fixpoint mentions (c : Ascii.ascii) (s : string) : bool :=
  match s with
  | EmptyString => false
  | String x s' => if Ascii.ascii_dec c x then true else mentions c s'
  end.

Definition kubeRbacProxyNames : list string :=
  ["driver-kube-rbac-proxy"; "provisioner-kube-rbac-proxy";
   "attacher-kube-rbac-proxy"; "resizer-kube-rbac-proxy";
   "snapshotter-kube-rbac-proxy"].

Definition csiSidecarNames : list string :=
  ["csi-provisioner"; "csi-attacher"; "csi-snapshotter"; "csi-resizer"].

Definition containersNamed (name : string) (cs : list Container.t) : nat :=
  length (filter (fun c => Container.Name c = name) cs).

Definition volumesNamed (name : string) (vs : list Volume.t) : nat :=
  length (filter (fun v => Volume.Name v = name) vs).

Definition tagPair (t : AWSResourceTag.t) : string :=
  AWSResourceTag.Key t +:+ "=" +:+ AWSResourceTag.Value t.

Definition awsInfra (aws : AWSPlatformStatus.t) : Infrastructure.t :=
  Infrastructure.mk (Some (PlatformStatus.mk (Some aws))).

Definition fullStatus : AWSPlatformStatus.t :=
  AWSPlatformStatus.mk "eu-west-1"
    [AWSServiceEndpoint.mk "ec2" "https://old.example";
     AWSServiceEndpoint.mk "s3" "https://s3.example";
     AWSServiceEndpoint.mk "ec2" "https://ec2.example"]
    [AWSResourceTag.mk "team" "storage"].

Definition blankEndpointStatus : AWSPlatformStatus.t :=
  AWSPlatformStatus.mk "eu-west-1"
    [AWSServiceEndpoint.mk "ec2" "https://old.example";
     AWSServiceEndpoint.mk "ec2" ""]
    [].

Definition listerOf (infra : Infrastructure.t) (name : string)
    : Infrastructure.t + error :=
  if name =? "cluster" then inl infra else inr (StatusNotFound name).

Definition failingInfraLister (name : string) : Infrastructure.t + error :=
  inr (StatusNotFound name).

Definition forbiddenLister (name : string) : ConfigMap.t + error :=
  inr (StatusError "forbidden").

Definition assetFiles (name : string) : string + error :=
  if name =? "controller_sa.yaml"
  then inl "namespace: ${NAMESPACE}"
  else inr (Errorf "file does not exist").

(** A hook that neither reads nor writes the namespace: run on a
    deployment moved to another namespace it does what it did before, in
    the new namespace. *)
Definition ignoresNamespace (hook : DeploymentHookFunc) : Prop :=
  forall namespace d,
    hook (Deployment.setNamespace namespace d)
    = (Deployment.setNamespace namespace (fst (hook d)), snd (hook d)).

(** * Properties *)

(** ** The index loops against their structural readings *)

Section RangeFacts.
Context {A : Type}.
Implicit Types (s pre : list A) (body : A -> A) (hit : A -> bool).

Lemma rangeUpdate_prefix body s k :
  k <= length s ->
  foldl (rangeStep body) s (seq 0 k) = (body <$> take k s) ++ drop k s.
Proof.
  induction k as [|k IH]; intros Hk.
  - by rewrite take_0, drop_0.
  - rewrite seq_S, foldl_app, IH by lia. simpl.
    destruct (lookup_lt_is_Some_2 s k ltac:(lia)) as [x Hx].
    unfold rangeStep.
    assert (Hlen : length (body <$> take k s) = k)
      by (rewrite length_fmap, length_take; lia).
    rewrite lookup_app_r by lia.
    rewrite Hlen, Nat.sub_diag, lookup_drop, Nat.add_0_r, Hx.
    rewrite insert_app_r_alt by lia.
    rewrite Hlen, Nat.sub_diag.
    rewrite (drop_S s x k Hx). simpl.
    rewrite (take_S_r s k x Hx), fmap_app. simpl.
    by rewrite <- app_assoc.
Qed.

Lemma rangeUpdate_fmap body s : rangeUpdate body s = body <$> s.
Proof.
  unfold rangeUpdate. rewrite rangeUpdate_prefix by lia.
  by rewrite firstn_all, drop_all, app_nil_r.
Qed.

Lemma rangeFirstFrom_spec hit body s pre :
  rangeFirstFrom hit body (pre ++ s) (seq (length pre) (length s))
  = (pre ++.) <$> updateFirst hit body s.
Proof.
  revert pre. induction s as [|x s IH]; intros pre; [done|].
  simpl. rewrite list_lookup_middle by done.
  destruct (hit x).
  - simpl. f_equal. rewrite insert_app_r_alt by lia.
    by rewrite Nat.sub_diag.
  - specialize (IH (pre ++ [x])).
    rewrite <- app_assoc, length_app in IH. simpl in IH.
    rewrite Nat.add_1_r in IH. rewrite IH.
    destruct (updateFirst hit body s); simpl; [|done].
    by rewrite <- app_assoc.
Qed.

Lemma rangeFirst_spec hit body s :
  rangeFirst hit body s = updateFirst hit body s.
Proof.
  pose proof (rangeFirstFrom_spec hit body s []) as H. simpl in H.
  unfold rangeFirst. rewrite H.
  by destruct (updateFirst hit body s).
Qed.

Lemma rangeDeleteFrom_spec hit s pre :
  rangeDeleteFrom hit (pre ++ s) (seq (length pre) (length s))
  = pre ++ deleteFirst hit s.
Proof.
  revert pre. induction s as [|x s IH]; intros pre; [done|].
  simpl. rewrite list_lookup_middle by done.
  destruct (hit x).
  - rewrite take_app_length, drop_app_ge by lia.
    by replace (S (length pre) - length pre) with 1 by lia.
  - specialize (IH (pre ++ [x])).
    rewrite <- app_assoc, length_app in IH. simpl in IH.
    rewrite Nat.add_1_r in IH. rewrite IH.
    by rewrite <- app_assoc.
Qed.

Lemma rangeDelete_spec hit s : rangeDelete hit s = deleteFirst hit s.
Proof. apply (rangeDeleteFrom_spec hit s []). Qed.
End RangeFacts.

Section FirstFacts.
Context {A : Type}.
Implicit Types (s : list A) (body : A -> A) (hit : A -> bool).

Lemma deleteFirst_none hit s :
  (forall x, x ∈ s -> hit x = false) -> deleteFirst hit s = s.
Proof.
  induction s as [|x s IH]; intros Hs; [done|]. simpl.
  rewrite (Hs x) by apply list_elem_of_here.
  f_equal. apply IH. intros y Hy. apply Hs. by apply list_elem_of_further.
Qed.

Lemma deleteFirst_split hit l1 x l2 :
  (forall y, y ∈ l1 -> hit y = false) -> hit x = true ->
  deleteFirst hit (l1 ++ x :: l2) = l1 ++ l2.
Proof.
  induction l1 as [|y l1 IH]; intros Hl1 Hx; simpl.
  - by rewrite Hx.
  - rewrite (Hl1 y) by apply list_elem_of_here.
    f_equal. apply IH; [|done]. intros z Hz. apply Hl1.
    by apply list_elem_of_further.
Qed.

Lemma deleteFirst_elem_of hit s x : x ∈ deleteFirst hit s -> x ∈ s.
Proof.
  induction s as [|y s IH]; simpl; [done|].
  destruct (hit y); intros Hx.
  - by apply list_elem_of_further.
  - apply elem_of_cons in Hx as [-> | Hx].
    + apply list_elem_of_here.
    + apply list_elem_of_further. by apply IH.
Qed.

Lemma deleteFirst_keeps hit s x :
  x ∈ s -> hit x = false -> x ∈ deleteFirst hit s.
Proof.
  induction s as [|y s IH]; simpl; intros Hx Hhit; [done|].
  apply elem_of_cons in Hx as [-> | Hx].
  - rewrite Hhit. apply list_elem_of_here.
  - destruct (hit y); [done|]. apply list_elem_of_further. by apply IH.
Qed.

Lemma updateFirst_none hit body s :
  (forall x, x ∈ s -> hit x = false) -> updateFirst hit body s = None.
Proof.
  induction s as [|x s IH]; intros Hs; [done|]. simpl.
  rewrite (Hs x) by apply list_elem_of_here.
  rewrite IH; [done|]. intros y Hy. apply Hs. by apply list_elem_of_further.
Qed.

Lemma updateFirst_split hit body l1 x l2 :
  (forall y, y ∈ l1 -> hit y = false) -> hit x = true ->
  updateFirst hit body (l1 ++ x :: l2) = Some (l1 ++ body x :: l2).
Proof.
  induction l1 as [|y l1 IH]; intros Hl1 Hx; simpl.
  - by rewrite Hx.
  - rewrite (Hl1 y) by apply list_elem_of_here.
    rewrite IH; [done| |done]. intros z Hz. apply Hl1.
    by apply list_elem_of_further.
Qed.

(** The first element satisfying [hit], when there is one. *)
Lemma first_hit_split hit s x :
  x ∈ s -> hit x = true ->
  exists l1 y l2, s = l1 ++ y :: l2 /\ hit y = true
    /\ forall z, z ∈ l1 -> hit z = false.
Proof.
  induction s as [|y s IH]; intros Hx Hhit.
  - by apply elem_of_nil in Hx.
  - destruct (hit y) eqn:Hy.
    + exists [], y, s. split_and!; [done|done|].
      intros z Hz. by apply elem_of_nil in Hz.
    + apply elem_of_cons in Hx as [-> | Hx]; [congruence|].
      destruct (IH Hx Hhit) as (l1 & z & l2 & -> & Hz & Hl1).
      exists (y :: l1), z, l2. split_and!; [done|done|].
      intros w Hw. apply elem_of_cons in Hw as [-> | Hw]; auto.
Qed.
End FirstFacts.

(** ** The hosted hook, loop by loop *)

Example rangeDelete_first_only :
  rangeDelete (Nat.eqb 7) [1; 7; 2; 7; 3] = [1; 2; 7; 3].
Proof. reflexivity. Qed.

Example rangeFirst_first_only :
  rangeFirst (Nat.eqb 7) S [1; 7; 2; 7] = Some [1; 8; 2; 7].
Proof. reflexivity. Qed.

Example rangeUpdate_all :
  rangeUpdate (fun n => if Nat.eqb 7 n then S n else n) [1; 7; 2; 7] = [1; 8; 2; 8].
Proof. reflexivity. Qed.

Lemma foldl_filterStep acc cs :
  foldl filterStep acc cs = acc ++ filter keptContainer cs.
Proof.
  revert acc. induction cs as [|c cs IH]; intros acc; simpl.
  - by rewrite filter_nil, app_nil_r.
  - rewrite IH. unfold filterStep.
    destruct (isKubeRbacProxy (Container.Name c)) eqn:Hc.
    + rewrite filter_cons_False; [done|]. unfold keptContainer. congruence.
    + rewrite filter_cons_True by done. by rewrite <- app_assoc.
Qed.

Lemma hypershiftContainers_spec img cs :
  hypershiftContainers img cs
  = (kubeconfigBody <$> filter keptContainer cs) ++ [tokenMinter img].
Proof.
  unfold hypershiftContainers. by rewrite foldl_filterStep, rangeUpdate_fmap.
Qed.

Lemma hypershiftVolumes_spec vols :
  hypershiftVolumes vols
  = deleteFirst isMetricsServingCert
      (boundSaTokenBody <$> (vols ++ [hostedKubeconfigVolume])).
Proof.
  unfold hypershiftVolumes. by rewrite rangeUpdate_fmap, rangeDelete_spec.
Qed.

Lemma boundSaTokenBody_Name v :
  Volume.Name (boundSaTokenBody v) = Volume.Name v.
Proof. unfold boundSaTokenBody. by destruct (Volume.Name v =? _). Qed.

Lemma isMetricsServingCert_boundSaTokenBody v :
  isMetricsServingCert (boundSaTokenBody v) = isMetricsServingCert v.
Proof. unfold isMetricsServingCert. by rewrite boundSaTokenBody_Name. Qed.

Lemma kubeconfigBody_Name c :
  Container.Name (kubeconfigBody c) = Container.Name c.
Proof. unfold kubeconfigBody. by destruct (isCSISidecar _). Qed.

Lemma withHypershiftDeploymentHook_true img d :
  withHypershiftDeploymentHook true img d
  = (Deployment.mk (Deployment.Namespace d) (Deployment.Replicas d)
       (PodSpec.mk (hypershiftVolumes (deploymentVolumes d))
          (hypershiftContainers img (deploymentContainers d))
          hypershiftPriorityClass),
     None).
Proof. reflexivity. Qed.

Lemma hypershiftContainers_elem_of img cs c :
  c ∈ hypershiftContainers img cs <->
  (exists c0, c0 ∈ cs /\ keptContainer c0 /\ c = kubeconfigBody c0)
  \/ c = tokenMinter img.
Proof.
  rewrite hypershiftContainers_spec, elem_of_app, list_elem_of_singleton.
  rewrite list_elem_of_fmap. split.
  - intros [(c0 & -> & Hc0) | ->]; [left|by right].
    apply list_elem_of_filter in Hc0 as [Hk Hc0]. by exists c0.
  - intros [(c0 & Hc0 & Hk & ->) | ->]; [left|by right].
    exists c0. split; [done|]. by apply list_elem_of_filter.
Qed.

Lemma hypershiftVolumes_elem_of vols v :
  v ∈ hypershiftVolumes vols ->
  v = hostedKubeconfigVolume \/ exists v0, v0 ∈ vols /\ v = boundSaTokenBody v0.
Proof.
  rewrite hypershiftVolumes_spec. intros Hv.
  apply deleteFirst_elem_of, list_elem_of_fmap in Hv as (v0 & -> & Hv0).
  apply elem_of_app in Hv0 as [Hv0|Hv0].
  - right. by exists v0.
  - left. by apply list_elem_of_singleton in Hv0 as ->.
Qed.

Lemma hypershiftVolumes_keeps vols v0 :
  v0 ∈ vols -> isMetricsServingCert v0 = false ->
  boundSaTokenBody v0 ∈ hypershiftVolumes vols.
Proof.
  intros Hv0 Hm. rewrite hypershiftVolumes_spec.
  apply deleteFirst_keeps.
  - apply list_elem_of_fmap_2, elem_of_app. by left.
  - by rewrite isMetricsServingCert_boundSaTokenBody.
Qed.

(** ** Hosted topology *)

(** C1.  On a deployment that has containers named driver-kube-rbac-proxy
    and csi-provisioner and a volume named bound-sa-token, the hosted hooks
    (the deployment hook, then the replicas hook, both with the hosted flag
    set) succeed and leave a deployment in which no container is named
    driver-kube-rbac-proxy; every csi-provisioner container is one of the
    input with the kubeconfig argument appended last, the KUBECONFIG
    variable in its environment and the hosted-kubeconfig mount at
    /etc/hosted-kubernetes; every bound-sa-token volume is an in-memory
    empty dir; the replica count is 1; and the priority class is
    hypershift-control-plane. *)
Theorem hosted_hooks_shape (img : string) (replicasHook : DeploymentHookFunc)
    (d : Deployment.t) :
  hasContainer "driver-kube-rbac-proxy" d ->
  hasContainer "csi-provisioner" d ->
  hasVolume "bound-sa-token" d ->
  exists d1 d',
    withHypershiftDeploymentHook true img d = (d1, None)
    /\ withHypershiftReplicasHook true replicasHook d1 = (d', None)
    /\ ~ hasContainer "driver-kube-rbac-proxy" d'
    /\ hasContainer "csi-provisioner" d'
    /\ (forall c, c ∈ deploymentContainers d' ->
          Container.Name c = "csi-provisioner" ->
          exists c0, c0 ∈ deploymentContainers d
            /\ Container.Name c0 = "csi-provisioner"
            /\ Container.Args c = Container.Args c0 ++ ["--kubeconfig=$(KUBECONFIG)"]
            /\ EnvVar.mk "KUBECONFIG" "/etc/hosted-kubernetes/kubeconfig"
                 ∈ Container.Env c
            /\ VolumeMount.mk "hosted-kubeconfig" "/etc/hosted-kubernetes" true
                 ∈ Container.VolumeMounts c)
    /\ hasVolume "bound-sa-token" d'
    /\ (forall v, v ∈ deploymentVolumes d' ->
          Volume.Name v = "bound-sa-token" ->
          Volume.VolumeSource v
          = VolumeSource.mk None (Some StorageMediumMemory) None None)
    /\ Deployment.Replicas d' = Some 1%Z
    /\ PodSpec.PriorityClassName (Deployment.Spec d') = "hypershift-control-plane".
Proof.
  intros _ (p & Hp & Hpn) (b & Hb & Hbn).
  eexists. eexists. split; [apply withHypershiftDeploymentHook_true|].
  split; [reflexivity|].
  unfold hasContainer, hasVolume, deploymentContainers, deploymentVolumes.
  simpl. fold (deploymentContainers d) (deploymentVolumes d).
  split_and!.
  - intros (c & Hc & Hn).
    apply hypershiftContainers_elem_of in Hc as [(c0 & _ & Hk & ->) | ->].
    + rewrite kubeconfigBody_Name in Hn. unfold keptContainer in Hk.
      by rewrite Hn in Hk.
    + discriminate Hn.
  - exists (kubeconfigBody p). split; [|by rewrite kubeconfigBody_Name].
    apply hypershiftContainers_elem_of. left. exists p.
    split_and!; [done| |done]. unfold keptContainer. by rewrite Hpn.
  - intros c Hc Hn.
    apply hypershiftContainers_elem_of in Hc as [(c0 & Hc0 & _ & ->) | ->];
      [|discriminate Hn].
    rewrite kubeconfigBody_Name in Hn. exists c0.
    unfold kubeconfigBody. rewrite Hn. simpl.
    split_and!; [done|done|done| |]; apply elem_of_app; right;
      apply list_elem_of_here.
  - exists (boundSaTokenBody b). split; [|by rewrite boundSaTokenBody_Name].
    apply hypershiftVolumes_keeps; [done|].
    unfold isMetricsServingCert. by rewrite Hbn.
  - intros v Hv Hn.
    apply hypershiftVolumes_elem_of in Hv as [-> | (v0 & _ & ->)];
      [discriminate Hn|].
    rewrite boundSaTokenBody_Name in Hn. unfold boundSaTokenBody.
    by rewrite Hn.
  - done.
  - done.
Qed.

Lemma hosted_hooks_shape_witness :
  exists d1 d',
    withHypershiftDeploymentHook true "img" hostedBase = (d1, None)
    /\ withHypershiftReplicasHook true (fun d => (d, None)) d1 = (d', None)
    /\ Deployment.Replicas d' = Some 1%Z.
Proof.
  destruct (hosted_hooks_shape "img" (fun d => (d, None)) hostedBase)
    as (d1 & d' & Hrun1 & Hrun2 & _ & _ & _ & _ & _ & Hrep & _).
  - exists (named "driver-kube-rbac-proxy"). split; [|reflexivity].
    unfold hostedBase, deploymentContainers; simpl.
    apply list_elem_of_further, list_elem_of_here.
  - exists (named "csi-provisioner"). split; [|reflexivity].
    unfold hostedBase, deploymentContainers; simpl.
    do 2 apply list_elem_of_further. apply list_elem_of_here.
  - exists (projected "bound-sa-token"). split; [|reflexivity].
    unfold hostedBase, deploymentVolumes; simpl. apply list_elem_of_here.
  - exists d1, d'. split_and!; assumption.
Defined.

Lemma metricsServingCerts_app l1 l2 :
  metricsServingCerts (l1 ++ l2) = metricsServingCerts l1 + metricsServingCerts l2.
Proof. unfold metricsServingCerts. by rewrite filter_app, length_app. Qed.

Lemma metricsServingCerts_boundSaTokenBody vols :
  metricsServingCerts (boundSaTokenBody <$> vols) = metricsServingCerts vols.
Proof.
  unfold metricsServingCerts. induction vols as [|v vols IH]; [done|].
  rewrite fmap_cons, !filter_cons, boundSaTokenBody_Name.
  destruct (decide (Volume.Name v = "metrics-serving-cert")); simpl; lia.
Qed.

Lemma isMetricsServingCert_true v :
  isMetricsServingCert v = true <-> Volume.Name v = "metrics-serving-cert".
Proof. apply String.eqb_eq. Qed.

Lemma isMetricsServingCert_false v :
  isMetricsServingCert v = false <-> Volume.Name v <> "metrics-serving-cert".
Proof. apply String.eqb_neq. Qed.

Lemma hypershiftVolumes_split l1 v l2 :
  (forall u, u ∈ l1 -> Volume.Name u <> "metrics-serving-cert") ->
  Volume.Name v = "metrics-serving-cert" ->
  hypershiftVolumes (l1 ++ v :: l2)
  = boundSaTokenBody <$> (l1 ++ l2 ++ [hostedKubeconfigVolume]).
Proof.
  intros Hl1 Hv. rewrite hypershiftVolumes_spec.
  rewrite <- app_assoc. simpl.
  rewrite (fmap_app _ l1 (v :: _)), fmap_cons, (fmap_app _ l1 (l2 ++ _)).
  apply deleteFirst_split.
  - intros u Hu. apply list_elem_of_fmap in Hu as (u0 & -> & Hu0).
    rewrite isMetricsServingCert_boundSaTokenBody.
    apply isMetricsServingCert_false. auto.
  - rewrite isMetricsServingCert_boundSaTokenBody.
    by apply isMetricsServingCert_true.
Qed.

Lemma hypershiftVolumes_none vols :
  (forall u, u ∈ vols -> Volume.Name u <> "metrics-serving-cert") ->
  hypershiftVolumes vols = boundSaTokenBody <$> (vols ++ [hostedKubeconfigVolume]).
Proof.
  intros Hvols. rewrite hypershiftVolumes_spec. apply deleteFirst_none.
  intros u Hu. apply list_elem_of_fmap in Hu as (u0 & -> & Hu0).
  rewrite isMetricsServingCert_boundSaTokenBody.
  apply elem_of_app in Hu0 as [Hu0|Hu0].
  - apply isMetricsServingCert_false. auto.
  - by apply list_elem_of_singleton in Hu0 as ->.
Qed.

(** C7.  Under hosted topology the deployment hook drops only the first
    volume named metrics-serving-cert.  When the volume list splits as
    [l1 ++ v :: l2] with [v] the first volume of that name, the removal
    loop maps it to [l1 ++ l2], and the hook leaves [l1 ++ l2] followed by
    the kubeconfig volume (each volume passed through the bound-sa-token
    rewrite, which keeps names), so of [n + 1] volumes of that name [n]
    remain, in order.  When no volume has that name the removal loop
    changes nothing. *)
Theorem hosted_removes_first_metrics_serving_cert (img : string)
    (d : Deployment.t) :
  let vols := deploymentVolumes d in
  let vols' := deploymentVolumes (fst (withHypershiftDeploymentHook true img d)) in
  (forall l1 v l2,
      vols = l1 ++ v :: l2 ->
      (forall u, u ∈ l1 -> Volume.Name u <> "metrics-serving-cert") ->
      Volume.Name v = "metrics-serving-cert" ->
      rangeDelete isMetricsServingCert vols = l1 ++ l2
      /\ vols' = boundSaTokenBody <$> (l1 ++ l2 ++ [hostedKubeconfigVolume]))
  /\ (forall n, metricsServingCerts vols = S n -> metricsServingCerts vols' = n)
  /\ ((forall u, u ∈ vols -> Volume.Name u <> "metrics-serving-cert") ->
      rangeDelete isMetricsServingCert vols = vols
      /\ vols' = boundSaTokenBody <$> (vols ++ [hostedKubeconfigVolume])).
Proof.
  intros vols vols'.
  assert (Hvols' : vols' = hypershiftVolumes vols) by reflexivity.
  split_and!.
  - intros l1 v l2 Hsplit Hl1 Hv. split.
    + rewrite rangeDelete_spec, Hsplit. apply deleteFirst_split.
      * intros u Hu. apply isMetricsServingCert_false. auto.
      * by apply isMetricsServingCert_true.
    + rewrite Hvols', Hsplit. by apply hypershiftVolumes_split.
  - intros n Hn.
    assert (exists x, x ∈ vols /\ isMetricsServingCert x = true) as (x & Hx & Hxm).
    { unfold metricsServingCerts in Hn.
      destruct (filter _ vols) as [|x rest] eqn:Hf; [discriminate Hn|].
      assert (Hin : x ∈ filter (fun v => Volume.Name v = "metrics-serving-cert") vols)
        by (rewrite Hf; apply list_elem_of_here).
      apply list_elem_of_filter in Hin as [Hname Hin].
      exists x. split; [done|]. by apply isMetricsServingCert_true. }
    destruct (first_hit_split _ _ _ Hx Hxm) as (l1 & y & l2 & Hsplit & Hy & Hl1).
    rewrite Hvols', Hsplit, hypershiftVolumes_split.
    + rewrite Hsplit in Hn.
      rewrite metricsServingCerts_boundSaTokenBody, !metricsServingCerts_app.
      rewrite metricsServingCerts_app in Hn.
      change (y :: l2) with ([y] ++ l2) in Hn.
      rewrite metricsServingCerts_app in Hn.
      apply isMetricsServingCert_true in Hy.
      assert (metricsServingCerts [y] = 1) as Hone
        by (unfold metricsServingCerts; by rewrite filter_cons_True).
      rewrite Hone in Hn.
      change (metricsServingCerts [hostedKubeconfigVolume]) with 0. lia.
    + intros u Hu. apply isMetricsServingCert_false. auto.
    + by apply isMetricsServingCert_true.
  - intros Hnone. split.
    + rewrite rangeDelete_spec. apply deleteFirst_none.
      intros u Hu. apply isMetricsServingCert_false. auto.
    + rewrite Hvols'. by apply hypershiftVolumes_none.
Qed.

Lemma hosted_removes_first_metrics_serving_cert_witness :
  deploymentVolumes (fst (withHypershiftDeploymentHook true "img" twoCerts))
  = boundSaTokenBody <$>
      ([projected "bound-sa-token"]
       ++ [projected "socket-dir"; projected "metrics-serving-cert"]
       ++ [hostedKubeconfigVolume])
  /\ metricsServingCerts
       (deploymentVolumes (fst (withHypershiftDeploymentHook true "img" twoCerts)))
     = 1.
Proof.
  destruct (hosted_removes_first_metrics_serving_cert "img" twoCerts)
    as (Hfirst & Hcount & _).
  split.
  - apply (Hfirst [projected "bound-sa-token"] (projected "metrics-serving-cert")
             [projected "socket-dir"; projected "metrics-serving-cert"]).
    + reflexivity.
    + intros u Hu. apply list_elem_of_singleton in Hu as ->. discriminate.
    + reflexivity.
  - apply Hcount. reflexivity.
Defined.

(** ** The custom CA bundle hook *)

Lemma isCSIDriver_true c : isCSIDriver c = true <-> Container.Name c = "csi-driver".
Proof. apply String.eqb_eq. Qed.

Lemma isCSIDriver_false c : isCSIDriver c = false <-> Container.Name c <> "csi-driver".
Proof. apply String.eqb_neq. Qed.

(** The first container named csi-driver, when there is one. *)
Lemma first_csi_driver d :
  hasContainer "csi-driver" d ->
  exists l1 c l2,
    deploymentContainers d = l1 ++ c :: l2
    /\ Container.Name c = "csi-driver"
    /\ forall x, x ∈ l1 -> Container.Name x <> "csi-driver".
Proof.
  intros (c & Hc & Hn). apply isCSIDriver_true in Hn.
  destruct (first_hit_split _ _ _ Hc Hn) as (l1 & y & l2 & Hs & Hy & Hl1).
  exists l1, y, l2. split_and!; [done|by apply isCSIDriver_true|].
  intros x Hx. apply isCSIDriver_false. auto.
Qed.

Lemma no_csi_driver d :
  ~ hasContainer "csi-driver" d ->
  forall x, x ∈ deploymentContainers d -> isCSIDriver x = false.
Proof.
  intros Hno x Hx. apply isCSIDriver_false. intros Hn. apply Hno. by exists x.
Qed.

Lemma caBundleConfigName_nonempty isHypershift :
  (caBundleConfigName isHypershift =? "") = false.
Proof. by destruct isHypershift. Qed.

Lemma customAWSCABundle_not_found isHypershift lister err :
  lister (caBundleConfigName isHypershift) = inr err ->
  IsNotFound err = true ->
  customAWSCABundle isHypershift lister = ("", None).
Proof. intros Hl Hnf. unfold customAWSCABundle. by rewrite Hl, Hnf. Qed.

Lemma customAWSCABundle_no_key isHypershift lister cm :
  lister (caBundleConfigName isHypershift) = inl cm ->
  ConfigMap.Data cm !! caBundleKey = None ->
  customAWSCABundle isHypershift lister = ("", None).
Proof. intros Hl Hk. unfold customAWSCABundle. by rewrite Hl, Hk. Qed.

Lemma customAWSCABundle_found isHypershift lister cm pem :
  lister (caBundleConfigName isHypershift) = inl cm ->
  ConfigMap.Data cm !! caBundleKey = Some pem ->
  customAWSCABundle isHypershift lister = (caBundleConfigName isHypershift, None).
Proof. intros Hl Hk. unfold customAWSCABundle. by rewrite Hl, Hk. Qed.

Lemma withCustomAWSCABundle_absent isHypershift lister d :
  customAWSCABundle isHypershift lister = ("", None) ->
  withCustomAWSCABundle isHypershift lister d = (d, None).
Proof. intros H. unfold withCustomAWSCABundle. by rewrite H. Qed.

(** C2.  On a deployment with a container named csi-driver the CA bundle
    hook has three cases.  Config map not found: no error, deployment
    unchanged.  Config map found without the key ca-bundle.pem: the same.
    Config map found with the key: no error, the volume ca-bundle backed by
    that config map is appended to the volumes, and the first csi-driver
    container gets AWS_CA_BUNDLE=/etc/ca/ca-bundle.pem appended to its
    environment and a read-only mount of ca-bundle at /etc/ca appended to
    its mounts; the variable's value is the key under the mount path. *)
Theorem ca_bundle_hook_cases (isHypershift : bool)
    (lister : ConfigMapNamespaceLister) (d : Deployment.t) :
  hasContainer "csi-driver" d ->
  let configName := caBundleConfigName isHypershift in
  let hook := withCustomAWSCABundle isHypershift lister in
  (forall err, lister configName = inr err -> IsNotFound err = true ->
     hook d = (d, None))
  /\ (forall cm, lister configName = inl cm ->
        ConfigMap.Data cm !! "ca-bundle.pem" = None ->
        hook d = (d, None))
  /\ (forall cm pem, lister configName = inl cm ->
        ConfigMap.Data cm !! "ca-bundle.pem" = Some pem ->
        exists l1 c l2,
          deploymentContainers d = l1 ++ c :: l2
          /\ Container.Name c = "csi-driver"
          /\ (forall x, x ∈ l1 -> Container.Name x <> "csi-driver")
          /\ hook d =
             (Deployment.mk (Deployment.Namespace d) (Deployment.Replicas d)
                (PodSpec.mk
                   (deploymentVolumes d
                    ++ [Volume.mk "ca-bundle"
                          (VolumeSource.mk None None (Some configName) None)])
                   (l1
                    ++ Container.mk (Container.Name c) (Container.Image c)
                         (Container.ImagePullPolicy c) (Container.Command c)
                         (Container.Args c)
                         (Container.Env c
                          ++ [EnvVar.mk "AWS_CA_BUNDLE" "/etc/ca/ca-bundle.pem"])
                         (Container.VolumeMounts c
                          ++ [VolumeMount.mk "ca-bundle" "/etc/ca" true])
                         (Container.Requests c)
                       :: l2)
                   (PodSpec.PriorityClassName (Deployment.Spec d))),
              None)
          /\ "/etc/ca/ca-bundle.pem" = "/etc/ca" +:+ "/" +:+ caBundleKey).
Proof.
  intros Hcsi configName hook. split_and!.
  - intros err Hl Hnf. apply withCustomAWSCABundle_absent.
    by eapply customAWSCABundle_not_found.
  - intros cm Hl Hk. apply withCustomAWSCABundle_absent.
    by eapply customAWSCABundle_no_key.
  - intros cm pem Hl Hk.
    destruct (first_csi_driver d Hcsi) as (l1 & c & l2 & Hs & Hn & Hl1).
    exists l1, c, l2. split_and!; [done|done|done| |done].
    unfold hook, withCustomAWSCABundle.
    rewrite (customAWSCABundle_found _ _ _ _ Hl Hk), caBundleConfigName_nonempty.
    rewrite rangeFirst_spec.
    change (deploymentContainers (setDeploymentVolumes _ d))
      with (deploymentContainers d).
    rewrite Hs, updateFirst_split.
    + reflexivity.
    + intros y Hy. apply isCSIDriver_false. auto.
    + by apply isCSIDriver_true.
Qed.

Lemma ca_bundle_hook_cases_witness :
  exists d',
    withCustomAWSCABundle false bundleLister standaloneBase = (d', None)
    /\ length (deploymentVolumes d') = 2.
Proof.
  destruct (ca_bundle_hook_cases false bundleLister standaloneBase)
    as (_ & _ & Hfound).
  - exists (named "csi-driver"). split; [|reflexivity].
    unfold standaloneBase, deploymentContainers; simpl.
    apply list_elem_of_further, list_elem_of_here.
  - destruct (Hfound (ConfigMap.mk (<["ca-bundle.pem" := "PEM"]> ∅)) "PEM")
      as (l1 & c & l2 & _ & _ & _ & Hrun & _).
    + reflexivity.
    + reflexivity.
    + eexists. split; [exact Hrun|]. reflexivity.
Defined.

(** C10.  With a CA bundle configured and no container named csi-driver,
    the hook returns the missing-container error, and the deployment it
    leaves behind already carries the appended ca-bundle volume: it is not
    the deployment the hook was handed. *)
Theorem ca_bundle_hook_mutates_before_failing (isHypershift : bool)
    (lister : ConfigMapNamespaceLister) (d : Deployment.t)
    (cm : ConfigMap.t) (pem : string) :
  lister (caBundleConfigName isHypershift) = inl cm ->
  ConfigMap.Data cm !! "ca-bundle.pem" = Some pem ->
  ~ hasContainer "csi-driver" d ->
  withCustomAWSCABundle isHypershift lister d
  = (Deployment.mk (Deployment.Namespace d) (Deployment.Replicas d)
       (PodSpec.mk
          (deploymentVolumes d
           ++ [Volume.mk "ca-bundle"
                 (VolumeSource.mk None None
                    (Some (caBundleConfigName isHypershift)) None)])
          (deploymentContainers d)
          (PodSpec.PriorityClassName (Deployment.Spec d))),
     Some (Errorf "could not use custom CA bundle because the csi-driver container is missing from the deployment"))
  /\ fst (withCustomAWSCABundle isHypershift lister d) <> d.
Proof.
  intros Hl Hk Hno.
  assert (Hrun : withCustomAWSCABundle isHypershift lister d
    = (setDeploymentVolumes
         (deploymentVolumes d ++ [caBundleVolume (caBundleConfigName isHypershift)]) d,
       Some missingCSIDriver)).
  { unfold withCustomAWSCABundle.
    rewrite (customAWSCABundle_found _ _ _ _ Hl Hk), caBundleConfigName_nonempty.
    rewrite rangeFirst_spec, updateFirst_none; [done|].
    by apply no_csi_driver. }
  split; [exact Hrun|].
  rewrite Hrun. simpl. intros Heq.
  apply (f_equal (fun x => length (deploymentVolumes x))) in Heq.
  unfold deploymentVolumes in Heq. simpl in Heq.
  rewrite length_app in Heq. simpl in Heq. lia.
Qed.

Lemma ca_bundle_hook_mutates_before_failing_witness :
  fst (withCustomAWSCABundle false bundleLister noDriver) <> noDriver.
Proof.
  apply (ca_bundle_hook_mutates_before_failing false bundleLister noDriver
           (ConfigMap.mk (<["ca-bundle.pem" := "PEM"]> ∅)) "PEM").
  - reflexivity.
  - reflexivity.
  - intros (c & Hc & Hn).
    unfold noDriver, deploymentContainers in Hc; simpl in Hc.
    apply list_elem_of_singleton in Hc as ->. discriminate Hn.
Defined.

(** ** The infrastructure hooks *)

Lemma awsPlatformStatus_None infra :
  awsPlatformStatus infra = None <->
  Infrastructure.PlatformStatus infra = None
  \/ exists ps, Infrastructure.PlatformStatus infra = Some ps
                /\ PlatformStatus.AWS ps = None.
Proof.
  unfold awsPlatformStatus.
  destruct (Infrastructure.PlatformStatus infra) as [ps|]; split.
  - intros H. right. by exists ps.
  - by intros [H | (ps' & [= <-] & H)].
  - by left.
  - done.
Qed.

Lemma foldl_ec2Step_none acc eps :
  (forall ep, ep ∈ eps -> AWSServiceEndpoint.Name ep <> "ec2") ->
  foldl ec2Step acc eps = acc.
Proof.
  revert acc. induction eps as [|ep eps IH]; intros acc Heps; [done|].
  simpl. rewrite IH.
  - unfold ec2Step.
    destruct (String.eqb_spec (AWSServiceEndpoint.Name ep) "ec2") as [He|]; [|done].
    exfalso. apply (Heps ep); [apply list_elem_of_here|done].
  - intros ep' Hep'. apply Heps. by apply list_elem_of_further.
Qed.

Section InfraHooks.
Variable infraLister : InfrastructureLister.
Variable infra : Infrastructure.t.
Hypothesis lookup : infraLister "cluster" = inl infra.

Lemma withAWSRegion_no_status d :
  awsPlatformStatus infra = None -> withAWSRegion infraLister d = (d, None).
Proof using lookup.
  intros H. unfold withAWSRegion.
  change infrastructureName with "cluster". by rewrite lookup, H.
Qed.

Lemma withCustomTags_no_status d :
  awsPlatformStatus infra = None -> withCustomTags infraLister d = (d, None).
Proof using lookup.
  intros H. unfold withCustomTags.
  change infrastructureName with "cluster". by rewrite lookup, H.
Qed.

Lemma withCustomEndPoint_no_status d :
  awsPlatformStatus infra = None -> withCustomEndPoint infraLister d = (d, None).
Proof using lookup.
  intros H. unfold withCustomEndPoint.
  change infrastructureName with "cluster". by rewrite lookup, H.
Qed.

(** Once the lookup has succeeded none of the three hooks fails. *)
Lemma infra_hooks_no_error d :
  snd (withAWSRegion infraLister d) = None
  /\ snd (withCustomTags infraLister d) = None
  /\ snd (withCustomEndPoint infraLister d) = None.
Proof using lookup.
  unfold withAWSRegion, withCustomTags, withCustomEndPoint.
  change infrastructureName with "cluster". rewrite lookup.
  destruct (awsPlatformStatus infra) as [a|]; [|done].
  split_and!.
  - by destruct (_ =? _).
  - by destruct (_ =? _)%nat.
  - destruct (_ =? _); [done|]. by destruct (rangeFirst _ _ _).
Qed.
Variable aws : AWSPlatformStatus.t.
Hypothesis status : awsPlatformStatus infra = Some aws.

Lemma withAWSRegion_empty d :
  AWSPlatformStatus.Region aws = "" -> withAWSRegion infraLister d = (d, None).
Proof using lookup status.
  intros H. unfold withAWSRegion.
  change infrastructureName with "cluster". by rewrite lookup, status, H.
Qed.

Lemma withCustomTags_empty d :
  AWSPlatformStatus.ResourceTags aws = [] ->
  withCustomTags infraLister d = (d, None).
Proof using lookup status.
  intros H. unfold withCustomTags.
  change infrastructureName with "cluster". by rewrite lookup, status, H.
Qed.

Lemma withCustomEndPoint_no_ec2 d :
  (forall ep, ep ∈ AWSPlatformStatus.ServiceEndpoints aws ->
     AWSServiceEndpoint.Name ep <> "ec2") ->
  withCustomEndPoint infraLister d = (d, None).
Proof using lookup status.
  intros H. unfold withCustomEndPoint.
  change infrastructureName with "cluster".
  by rewrite lookup, status, foldl_ec2Step_none.
Qed.

Lemma withAWSRegion_set d :
  AWSPlatformStatus.Region aws <> "" ->
  withAWSRegion infraLister d
  = (setDeploymentContainers
       (onCSIDriver
          (Container.appendEnv
             (EnvVar.mk "AWS_REGION" (AWSPlatformStatus.Region aws)))
        <$> deploymentContainers d) d, None).
Proof using lookup status.
  intros H. unfold withAWSRegion.
  change infrastructureName with "cluster". rewrite lookup, status.
  apply String.eqb_neq in H. by rewrite H, rangeUpdate_fmap.
Qed.

Lemma withCustomTags_set d :
  AWSPlatformStatus.ResourceTags aws <> [] ->
  withCustomTags infraLister d
  = (setDeploymentContainers
       (onCSIDriver
          (Container.appendArg (tagsArgument (AWSPlatformStatus.ResourceTags aws)))
        <$> deploymentContainers d) d, None).
Proof using lookup status.
  intros H. unfold withCustomTags.
  change infrastructureName with "cluster". rewrite lookup, status.
  rewrite rangeUpdate_fmap.
  by destruct (AWSPlatformStatus.ResourceTags aws).
Qed.

End InfraHooks.

(** C4.  A hook whose optional data is absent does nothing and reports no
    error.  With the infrastructure object found: without an AWS platform
    status the region, tags and endpoint hooks all leave the deployment as
    it is; with one, the region hook does so on an empty region, the tags
    hook on an empty tag list, the endpoint hook when no service endpoint
    is named ec2; and whatever the object holds, none of the three returns
    an error.  The CA bundle hook leaves the deployment as it is, without
    error, when its config map is not found. *)
Theorem absent_data_hooks_noop (d : Deployment.t) :
  (forall infraLister infra,
      infraLister "cluster" = inl infra ->
      ((Infrastructure.PlatformStatus infra = None
        \/ exists ps, Infrastructure.PlatformStatus infra = Some ps
                      /\ PlatformStatus.AWS ps = None) ->
       withAWSRegion infraLister d = (d, None)
       /\ withCustomTags infraLister d = (d, None)
       /\ withCustomEndPoint infraLister d = (d, None))
      /\ (forall ps aws,
            Infrastructure.PlatformStatus infra = Some ps ->
            PlatformStatus.AWS ps = Some aws ->
            (AWSPlatformStatus.Region aws = "" ->
             withAWSRegion infraLister d = (d, None))
            /\ (AWSPlatformStatus.ResourceTags aws = [] ->
                withCustomTags infraLister d = (d, None))
            /\ ((forall ep, ep ∈ AWSPlatformStatus.ServiceEndpoints aws ->
                   AWSServiceEndpoint.Name ep <> "ec2") ->
                withCustomEndPoint infraLister d = (d, None)))
      /\ snd (withAWSRegion infraLister d) = None
      /\ snd (withCustomTags infraLister d) = None
      /\ snd (withCustomEndPoint infraLister d) = None)
  /\ (forall isHypershift lister err,
        lister (caBundleConfigName isHypershift) = inr err ->
        IsNotFound err = true ->
        withCustomAWSCABundle isHypershift lister d = (d, None)).
Proof.
  split.
  - intros infraLister infra Hl. split_and!.
    + intros Hno%awsPlatformStatus_None. split_and!.
      * by apply (withAWSRegion_no_status _ _ Hl).
      * by apply (withCustomTags_no_status _ _ Hl).
      * by apply (withCustomEndPoint_no_status _ _ Hl).
    + intros ps aws Hps Haws.
      assert (Hs : awsPlatformStatus infra = Some aws)
        by (unfold awsPlatformStatus; by rewrite Hps).
      split_and!.
      * by apply (withAWSRegion_empty _ _ Hl _ Hs).
      * by apply (withCustomTags_empty _ _ Hl _ Hs).
      * by apply (withCustomEndPoint_no_ec2 _ _ Hl _ Hs).
    + by apply (infra_hooks_no_error _ _ Hl d).
    + by apply (infra_hooks_no_error _ _ Hl d).
    + by apply (infra_hooks_no_error _ _ Hl d).
  - intros isHypershift lister err Hl Hnf.
    apply withCustomAWSCABundle_absent. by eapply customAWSCABundle_not_found.
Qed.

Lemma absent_data_hooks_noop_witness :
  withAWSRegion bareMetalLister standaloneBase = (standaloneBase, None)
  /\ withCustomTags bareMetalLister standaloneBase = (standaloneBase, None)
  /\ withCustomEndPoint bareMetalLister standaloneBase = (standaloneBase, None)
  /\ withCustomAWSCABundle true bundleLister standaloneBase = (standaloneBase, None).
Proof.
  destruct (absent_data_hooks_noop standaloneBase) as [Hinfra Hca].
  destruct (Hinfra bareMetalLister (Infrastructure.mk (Some (PlatformStatus.mk None))))
    as (Hno & _); [reflexivity|].
  destruct Hno as (Hr & Ht & He).
  { right. by exists (PlatformStatus.mk None). }
  split_and!; [done|done|done|].
  apply (Hca true bundleLister (StatusNotFound "user-ca-bundle")); reflexivity.
Defined.

(** ** Region and tags on a standalone cluster *)

Example Join_three : Join ["a"; "b"; "c"] "," = "a,b,c".
Proof. reflexivity. Qed.

Example tagsArgument_sample :
  tagsArgument [AWSResourceTag.mk "k1" "v1"; AWSResourceTag.mk "k2" "v2"]
  = "--extra-tags=k1=v1,k2=v2".
Proof. reflexivity. Qed.

Example ec2_last_wins :
  foldl ec2Step ""
    [AWSServiceEndpoint.mk "ec2" "https://a"; AWSServiceEndpoint.mk "s3" "https://b";
     AWSServiceEndpoint.mk "ec2" "https://c"]
  = "https://c".
Proof. reflexivity. Qed.

Lemma append_cons (x : Ascii.ascii) (a b : string) :
  String x a +:+ b = String x (a +:+ b).
Proof. reflexivity. Qed.

Lemma append_assoc (a b c : string) : (a +:+ b) +:+ c = a +:+ b +:+ c.
Proof.
  induction a as [|x a IH]; [done|]. by rewrite !append_cons, IH.
Qed.

Lemma prefix_append (p s : string) : String.prefix p (p +:+ s) = true.
Proof.
  induction p as [|x p IH].
  - by destruct s.
  - rewrite append_cons. simpl.
    destruct (Ascii.ascii_dec x x); [exact IH|done].
Qed.

Lemma filter_none {A} (P : A -> Prop) `{forall x, Decision (P x)} (l : list A) :
  (forall x, x ∈ l -> ~ P x) -> filter P l = [].
Proof.
  induction l as [|x l IH]; intros Hl; [done|].
  rewrite filter_cons_False by (apply Hl, list_elem_of_here).
  apply IH. intros y Hy. apply Hl. by apply list_elem_of_further.
Qed.

Lemma tagsArgument_two t1 t2 :
  tagsArgument [t1; t2]
  = "--extra-tags=" +:+ AWSResourceTag.Key t1 +:+ "=" +:+ AWSResourceTag.Value t1
    +:+ "," +:+ AWSResourceTag.Key t2 +:+ "=" +:+ AWSResourceTag.Value t2.
Proof.
  unfold tagsArgument, tagPairStep. simpl.
  by rewrite !append_assoc.
Qed.

Lemma onCSIDriver_Name f c :
  (forall x, Container.Name (f x) = Container.Name x) ->
  Container.Name (onCSIDriver f c) = Container.Name c.
Proof.
  intros Hf. unfold onCSIDriver. destruct (isCSIDriver c); simpl; [apply Hf|done].
Qed.

Lemma onCSIDriver_hit f c :
  Container.Name c = "csi-driver" -> onCSIDriver f c = f c.
Proof.
  intros Hn%isCSIDriver_true. unfold onCSIDriver. by rewrite Hn.
Qed.

(** C3 as stated fails: the tags hook appends its argument without looking
    at the arguments already there, so a driver that starts with the same
    argument ends with two of them. *)
Lemma extra_tags_not_single :
  hasContainer "csi-driver" taggedBase
  /\ snd (withAWSRegion (usEast1 twoTags) taggedBase) = None
  /\ snd (withCustomTags (usEast1 twoTags)
            (fst (withAWSRegion (usEast1 twoTags) taggedBase))) = None
  /\ ~ (forall c,
          c ∈ deploymentContainers
                (fst (withCustomTags (usEast1 twoTags)
                        (fst (withAWSRegion (usEast1 twoTags) taggedBase)))) ->
          Container.Name c = "csi-driver" ->
          occurrences "--extra-tags=k1=v1,k2=v2" (Container.Args c) = 1).
Proof.
  split_and!.
  - eexists. split; [apply list_elem_of_here|reflexivity].
  - reflexivity.
  - reflexivity.
  - intros H.
    specialize (H (Container.mk "csi-driver" "" "" []
                     ["--extra-tags=k1=v1,k2=v2"; "--extra-tags=k1=v1,k2=v2"]
                     [EnvVar.mk "AWS_REGION" "us-east-1"] [] ∅)).
    discriminate H; [apply list_elem_of_here|reflexivity].
Qed.

(** C3, amended.  With region us-east-1 and two resource tags in the cached
    infrastructure object, the region hook and then the tags hook succeed
    on any deployment that has a container named csi-driver.  Every
    csi-driver container of the result is one of the input with
    AWS_REGION=us-east-1 appended to its environment and the single
    argument --extra-tags=k1=v1,k2=v2 (pairs comma-joined in tag order)
    appended to its arguments.  That argument therefore occurs exactly once
    when the input arguments did not contain it, and is the only argument
    of the form --extra-tags=... when the input had none of that form. *)
Theorem standalone_region_and_tags (infraLister : InfrastructureLister)
    (infra : Infrastructure.t) (ps : PlatformStatus.t)
    (aws : AWSPlatformStatus.t) (t1 t2 : AWSResourceTag.t) (d : Deployment.t) :
  hasContainer "csi-driver" d ->
  infraLister "cluster" = inl infra ->
  Infrastructure.PlatformStatus infra = Some ps ->
  PlatformStatus.AWS ps = Some aws ->
  AWSPlatformStatus.Region aws = "us-east-1" ->
  AWSPlatformStatus.ResourceTags aws = [t1; t2] ->
  let arg :=
    "--extra-tags=" +:+ AWSResourceTag.Key t1 +:+ "=" +:+ AWSResourceTag.Value t1
    +:+ "," +:+ AWSResourceTag.Key t2 +:+ "=" +:+ AWSResourceTag.Value t2 in
  exists d1 d2,
    withAWSRegion infraLister d = (d1, None)
    /\ withCustomTags infraLister d1 = (d2, None)
    /\ hasContainer "csi-driver" d2
    /\ forall c, c ∈ deploymentContainers d2 ->
         Container.Name c = "csi-driver" ->
         exists c0, c0 ∈ deploymentContainers d
           /\ Container.Name c0 = "csi-driver"
           /\ Container.Env c = Container.Env c0 ++ [EnvVar.mk "AWS_REGION" "us-east-1"]
           /\ Container.Args c = Container.Args c0 ++ [arg]
           /\ (arg ∉ Container.Args c0 -> occurrences arg (Container.Args c) = 1)
           /\ ((forall a, a ∈ Container.Args c0 -> isExtraTags a = false) ->
               filter (fun a => isExtraTags a = true) (Container.Args c) = [arg]).
Proof.
  intros (c1 & Hc1 & Hn1) Hl Hps Haws Hregion Htags arg.
  assert (Hs : awsPlatformStatus infra = Some aws)
    by (unfold awsPlatformStatus; by rewrite Hps).
  set (env1 := Container.appendEnv (EnvVar.mk "AWS_REGION" "us-east-1")).
  set (arg1 := Container.appendArg arg).
  exists (setDeploymentContainers (onCSIDriver env1 <$> deploymentContainers d) d).
  eexists. split_and!.
  - rewrite (withAWSRegion_set _ _ Hl _ Hs) by (by rewrite Hregion).
    by rewrite Hregion.
  - rewrite (withCustomTags_set _ _ Hl _ Hs) by (by rewrite Htags).
    rewrite Htags, tagsArgument_two. reflexivity.
  - exists (arg1 (env1 c1)). split; [|done].
    unfold deploymentContainers. simpl.
    apply list_elem_of_fmap. exists (env1 c1). split.
    + by rewrite onCSIDriver_hit.
    + apply list_elem_of_fmap. exists c1. split; [|done].
      by rewrite onCSIDriver_hit.
  - intros c Hc Hn. unfold deploymentContainers in Hc. simpl in Hc.
    apply list_elem_of_fmap in Hc as (c' & -> & Hc').
    apply list_elem_of_fmap in Hc' as (c0 & -> & Hc0).
    rewrite !onCSIDriver_Name in Hn by done.
    exists c0. rewrite (onCSIDriver_hit env1 c0 Hn).
    rewrite (onCSIDriver_hit _ (env1 c0)) by done.
    split_and!; [done|done|done|done| |].
    + intros Hfresh. unfold occurrences. simpl.
      rewrite filter_app, filter_none by (intros x Hx ->; done).
      by rewrite filter_cons_True.
    + intros Hform. simpl.
      rewrite filter_app, filter_none.
      * rewrite filter_cons_True; [done|]. apply prefix_append.
      * intros x Hx. rewrite (Hform x Hx). done.
Qed.

Lemma standalone_region_and_tags_witness :
  exists d1 d2,
    withAWSRegion (usEast1 twoTags) standaloneBase = (d1, None)
    /\ withCustomTags (usEast1 twoTags) d1 = (d2, None)
    /\ hasContainer "csi-driver" d2.
Proof.
  destruct (standalone_region_and_tags (usEast1 twoTags)
              (Infrastructure.mk
                 (Some (PlatformStatus.mk
                          (Some (AWSPlatformStatus.mk "us-east-1" [] twoTags)))))
              (PlatformStatus.mk (Some (AWSPlatformStatus.mk "us-east-1" [] twoTags)))
              (AWSPlatformStatus.mk "us-east-1" [] twoTags)
              (AWSResourceTag.mk "k1" "v1") (AWSResourceTag.mk "k2" "v2")
              standaloneBase)
    as (d1 & d2 & H1 & H2 & H3 & _).
  - exists (named "csi-driver"). split; [|reflexivity].
    unfold standaloneBase, deploymentContainers; simpl.
    apply list_elem_of_further, list_elem_of_here.
  - reflexivity.
  - reflexivity.
  - reflexivity.
  - reflexivity.
  - reflexivity.
  - exists d1, d2. split_and!; assumption.
Defined.

(** ** The conditional resource gate *)

(** C5.  When the probe for the volume snapshot class CRD returns an error
    (a not-found status, which is how a missing CRD is reported, or any
    other failure), the install predicate is false, and the gate decision
    is not Install. *)
Theorem install_gate_closed_without_crd {CRD : Type}
    (probe : string -> CRD + error) (err : error) :
  probe "volumesnapshotclasses.snapshot.storage.k8s.io" = inr err ->
  shouldInstall probe = false /\ volumeSnapshotClassGate probe <> Install.
Proof.
  intros Hp.
  assert (Hi : shouldInstall probe = false).
  { unfold shouldInstall.
    change volumeSnapshotClassCRD
      with "volumesnapshotclasses.snapshot.storage.k8s.io".
    by rewrite Hp. }
  split; [exact Hi|].
  unfold volumeSnapshotClassGate, evaluate. rewrite Hi.
  by destruct (shouldDelete probe).
Qed.

Lemma install_gate_closed_without_crd_witness :
  shouldInstall noSnapshotCRD = false
  /\ volumeSnapshotClassGate noSnapshotCRD <> Install.
Proof.
  apply (install_gate_closed_without_crd noSnapshotCRD
           (StatusNotFound "volumesnapshotclasses.snapshot.storage.k8s.io")).
  reflexivity.
Defined.

(** C6.  The delete predicate of the volume snapshot class gate is false
    whatever the state of the cluster, and the gate decision is never
    Remove. *)
Theorem delete_gate_constant_false {CRD : Type} (probe : string -> CRD + error) :
  shouldDelete probe = false /\ volumeSnapshotClassGate probe <> Remove.
Proof.
  split; [reflexivity|].
  unfold volumeSnapshotClassGate, evaluate, shouldDelete.
  by destruct (shouldInstall probe).
Qed.

(** ** The config mirror *)

Lemma syncRule_dst (cluster : Cluster) dst src :
  ResourceSyncController.syncRule cluster (dst, src) !! ResourceLocation.key dst
  = cluster !! ResourceLocation.key src.
Proof.
  unfold ResourceSyncController.syncRule. simpl.
  destruct (cluster !! ResourceLocation.key src) as [cm|] eqn:Hsrc.
  - by rewrite lookup_insert_eq.
  - by rewrite lookup_delete_eq.
Qed.

Lemma syncRule_other (cluster : Cluster) dst src k :
  k <> ResourceLocation.key dst ->
  ResourceSyncController.syncRule cluster (dst, src) !! k = cluster !! k.
Proof.
  intros Hk. unfold ResourceSyncController.syncRule. simpl.
  destruct (cluster !! ResourceLocation.key src) as [cm|].
  - by rewrite lookup_insert_ne.
  - by rewrite lookup_delete_ne.
Qed.

Lemma syncRule_src (cluster : Cluster) dst src :
  ResourceSyncController.syncRule cluster (dst, src) !! ResourceLocation.key src
  = cluster !! ResourceLocation.key src.
Proof.
  destruct (decide (ResourceLocation.key src = ResourceLocation.key dst)) as [He|Hne].
  - rewrite He at 1. rewrite syncRule_dst. done.
  - by apply syncRule_other.
Qed.

Section Mirror.
Variable destinationNamespace : string.

Lemma newCustomAWSBundleSyncer_rules :
  newCustomAWSBundleSyncer destinationNamespace
  = (Some (mirrorRules destinationNamespace), None).
Proof. reflexivity. Qed.

Lemma Sync_dst (cluster : Cluster) :
  ResourceSyncController.Sync (mirrorRules destinationNamespace) cluster
    !! mirrorDst destinationNamespace
  = cluster !! mirrorSrc.
Proof. apply syncRule_dst. Qed.

Lemma Sync_src (cluster : Cluster) :
  ResourceSyncController.Sync (mirrorRules destinationNamespace) cluster
    !! mirrorSrc
  = cluster !! mirrorSrc.
Proof. apply syncRule_src. Qed.

Lemma Sync_other (cluster : Cluster) k :
  k <> mirrorDst destinationNamespace ->
  ResourceSyncController.Sync (mirrorRules destinationNamespace) cluster !! k
  = cluster !! k.
Proof. apply syncRule_other. Qed.

(** With the source absent and never applied, source and destination
    both stay absent. *)
Lemma mirrorRun_absent (trace : list MirrorEvent) (cluster : Cluster) :
  cluster !! mirrorSrc = None ->
  cluster !! mirrorDst destinationNamespace = None ->
  (forall e, e ∈ trace -> isSourceApplied e = false) ->
  mirrorRun (mirrorRules destinationNamespace) cluster trace !! mirrorSrc = None
  /\ mirrorRun (mirrorRules destinationNamespace) cluster trace
       !! mirrorDst destinationNamespace = None.
Proof.
  revert cluster. induction trace as [|e trace IH]; intros cluster Hs Hd Ht.
  - done.
  - unfold mirrorRun. simpl. apply IH.
    + destruct e; simpl.
      * by specialize (Ht _ (list_elem_of_here _ _)).
      * apply lookup_delete_eq.
      * by rewrite Sync_src.
    + destruct e; simpl.
      * by specialize (Ht _ (list_elem_of_here _ _)).
      * destruct (decide (mirrorDst destinationNamespace = mirrorSrc)) as [He|Hne].
        -- rewrite He. apply lookup_delete_eq.
        -- by rewrite lookup_delete_ne.
      * by rewrite Sync_dst.
    + intros e' He'. apply Ht. by apply list_elem_of_further.
Qed.
End Mirror.

(** C9.  The syncer built by [newCustomAWSBundleSyncer] mirrors the config
    map kube-cloud-config from openshift-config-managed into the operator's
    namespace, one way.  After a sync pass the destination holds exactly
    what the source held before the pass: the source's content when it
    exists, nothing when it does not (so a deleted source deletes the
    destination on the next pass).  The pass leaves the source and every
    other object alone.  Starting with neither object present, along any
    sequence of passes and source deletions in which the source is never
    created, the destination is never created. *)
Theorem config_mirror_one_way (destinationNamespace : string) :
  let src := ("openshift-config-managed", "kube-cloud-config") in
  let dst := (destinationNamespace, "kube-cloud-config") in
  exists mirror,
    newCustomAWSBundleSyncer destinationNamespace = (Some mirror, None)
    /\ (forall cluster : Cluster,
          ResourceSyncController.Sync mirror cluster !! dst = cluster !! src
          /\ ResourceSyncController.Sync mirror cluster !! src = cluster !! src
          /\ forall k, k <> dst ->
               ResourceSyncController.Sync mirror cluster !! k = cluster !! k)
    /\ (forall (cluster : Cluster) (trace : list MirrorEvent),
          cluster !! src = None -> cluster !! dst = None ->
          (forall e, e ∈ trace -> isSourceApplied e = false) ->
          mirrorRun mirror cluster trace !! dst = None).
Proof.
  intros src dst. eexists. split; [apply newCustomAWSBundleSyncer_rules|].
  split.
  - intros cluster. split_and!.
    + apply Sync_dst.
    + apply Sync_src.
    + intros k Hk. by apply Sync_other.
  - intros cluster trace Hs Hd Ht.
    by apply (mirrorRun_absent destinationNamespace trace cluster).
Qed.

Lemma config_mirror_one_way_witness :
  mirrorRun
    (ResourceSyncController.mk
       [(dstConfigMap "openshift-cluster-csi-drivers", srcConfigMap)])
    ∅ [SyncPass; SourceDeleted; SyncPass]
  !! ("openshift-cluster-csi-drivers", "kube-cloud-config") = None.
Proof.
  destruct (config_mirror_one_way "openshift-cluster-csi-drivers")
    as (mirror & Hnew & _ & Hnever).
  injection Hnew as <-.
  apply Hnever.
  - reflexivity.
  - reflexivity.
  - intros e He.
    repeat (apply elem_of_cons in He as [-> | He]; [reflexivity|]).
    by apply elem_of_nil in He.
Defined.

(** * Further properties of the hooks *)

(** ** The endpoint hook *)

Lemma foldl_ec2Step_last acc eps1 ep eps2 :
  AWSServiceEndpoint.Name ep = "ec2" ->
  (forall e, e ∈ eps2 -> AWSServiceEndpoint.Name e <> "ec2") ->
  foldl ec2Step acc (eps1 ++ ep :: eps2) = AWSServiceEndpoint.URL ep.
Proof.
  intros Hep Heps2. rewrite foldl_app. simpl.
  rewrite foldl_ec2Step_none by done.
  unfold ec2Step. by rewrite Hep.
Qed.

Lemma awsPlatformStatus_Some infra ps aws :
  Infrastructure.PlatformStatus infra = Some ps ->
  PlatformStatus.AWS ps = Some aws ->
  awsPlatformStatus infra = Some aws.
Proof. intros Hps Haws. unfold awsPlatformStatus. by rewrite Hps. Qed.

Lemma setDeploymentContainers_same d :
  setDeploymentContainers (deploymentContainers d) d = d.
Proof. by destruct d as [ns r [vs cs p]]. Qed.

Lemma fmap_onCSIDriver_none f (cs : list Container.t) :
  (forall x, x ∈ cs -> Container.Name x <> "csi-driver") ->
  onCSIDriver f <$> cs = cs.
Proof.
  induction cs as [|c cs IH]; intros Hcs; [done|].
  rewrite fmap_cons, IH.
  - f_equal. unfold onCSIDriver.
    assert (Hc : isCSIDriver c = false)
      by (apply isCSIDriver_false, Hcs, list_elem_of_here).
    by rewrite Hc.
  - intros x Hx. apply Hcs. by apply list_elem_of_further.
Qed.

(** X1.  When the AWS status lists service endpoints, the last entry named
    ec2 decides: with a non-empty URL there, the endpoint hook appends
    AWS_EC2_ENDPOINT with that URL to the environment of the first
    csi-driver container, touches no other container (later csi-driver
    containers included) and returns no error. *)
Theorem endpoint_last_ec2_entry_wins (infraLister : InfrastructureLister)
    (infra : Infrastructure.t) (ps : PlatformStatus.t)
    (aws : AWSPlatformStatus.t)
    (eps1 : list AWSServiceEndpoint.t) (ep : AWSServiceEndpoint.t)
    (eps2 : list AWSServiceEndpoint.t)
    (d : Deployment.t) (l1 : list Container.t) (c : Container.t)
    (l2 : list Container.t) :
  infraLister "cluster" = inl infra ->
  Infrastructure.PlatformStatus infra = Some ps ->
  PlatformStatus.AWS ps = Some aws ->
  AWSPlatformStatus.ServiceEndpoints aws = eps1 ++ ep :: eps2 ->
  AWSServiceEndpoint.Name ep = "ec2" ->
  (forall e, e ∈ eps2 -> AWSServiceEndpoint.Name e <> "ec2") ->
  AWSServiceEndpoint.URL ep <> "" ->
  deploymentContainers d = l1 ++ c :: l2 ->
  (forall x, x ∈ l1 -> Container.Name x <> "csi-driver") ->
  Container.Name c = "csi-driver" ->
  withCustomEndPoint infraLister d
  = (Deployment.mk (Deployment.Namespace d) (Deployment.Replicas d)
       (PodSpec.mk (deploymentVolumes d)
          (l1
           ++ Container.mk (Container.Name c) (Container.Image c)
                (Container.ImagePullPolicy c) (Container.Command c)
                (Container.Args c)
                (Container.Env c
                 ++ [EnvVar.mk "AWS_EC2_ENDPOINT" (AWSServiceEndpoint.URL ep)])
                (Container.VolumeMounts c) (Container.Requests c)
              :: l2)
          (PodSpec.PriorityClassName (Deployment.Spec d))),
     None).
Proof.
  intros Hl Hps Haws Heps Hep Heps2 Hurl Hcs Hl1 Hc.
  unfold withCustomEndPoint. change infrastructureName with "cluster".
  rewrite Hl, (awsPlatformStatus_Some _ _ _ Hps Haws), Heps.
  rewrite foldl_ec2Step_last by done.
  apply String.eqb_neq in Hurl. rewrite Hurl.
  rewrite rangeFirst_spec, Hcs, updateFirst_split.
  - reflexivity.
  - intros y Hy. apply isCSIDriver_false. auto.
  - by apply isCSIDriver_true.
Qed.

Lemma endpoint_last_ec2_entry_wins_witness :
  exists d',
    withCustomEndPoint (listerOf (awsInfra fullStatus)) standaloneBase = (d', None)
    /\ deploymentContainers d'
       = [named "csi-provisioner";
          Container.mk "csi-driver" "" "" [] []
            [EnvVar.mk "AWS_EC2_ENDPOINT" "https://ec2.example"] [] ∅;
          named "csi-driver"].
Proof.
  eexists. split.
  - apply (endpoint_last_ec2_entry_wins (listerOf (awsInfra fullStatus))
             (awsInfra fullStatus) (PlatformStatus.mk (Some fullStatus)) fullStatus
             [AWSServiceEndpoint.mk "ec2" "https://old.example";
              AWSServiceEndpoint.mk "s3" "https://s3.example"]
             (AWSServiceEndpoint.mk "ec2" "https://ec2.example") []
             standaloneBase [named "csi-provisioner"] (named "csi-driver")
             [named "csi-driver"]); try reflexivity.
    + intros e He. by apply elem_of_nil in He.
    + discriminate.
    + intros x Hx. apply list_elem_of_singleton in Hx as ->. discriminate.
  - reflexivity.
Defined.

(** X2.  The last ec2 entry decides even when its URL is empty: the
    endpoint hook then leaves the deployment as it is, whatever URLs
    earlier ec2 entries carry. *)
Theorem endpoint_blank_last_entry_disables (infraLister : InfrastructureLister)
    (infra : Infrastructure.t) (ps : PlatformStatus.t)
    (aws : AWSPlatformStatus.t)
    (eps1 : list AWSServiceEndpoint.t) (ep : AWSServiceEndpoint.t)
    (eps2 : list AWSServiceEndpoint.t) (d : Deployment.t) :
  infraLister "cluster" = inl infra ->
  Infrastructure.PlatformStatus infra = Some ps ->
  PlatformStatus.AWS ps = Some aws ->
  AWSPlatformStatus.ServiceEndpoints aws = eps1 ++ ep :: eps2 ->
  AWSServiceEndpoint.Name ep = "ec2" ->
  (forall e, e ∈ eps2 -> AWSServiceEndpoint.Name e <> "ec2") ->
  AWSServiceEndpoint.URL ep = "" ->
  withCustomEndPoint infraLister d = (d, None).
Proof.
  intros Hl Hps Haws Heps Hep Heps2 Hurl.
  unfold withCustomEndPoint. change infrastructureName with "cluster".
  rewrite Hl, (awsPlatformStatus_Some _ _ _ Hps Haws), Heps.
  rewrite foldl_ec2Step_last by done. by rewrite Hurl.
Qed.

Lemma endpoint_blank_last_entry_disables_witness :
  withCustomEndPoint (listerOf (awsInfra blankEndpointStatus)) standaloneBase
  = (standaloneBase, None).
Proof.
  apply (endpoint_blank_last_entry_disables
           (listerOf (awsInfra blankEndpointStatus))
           (awsInfra blankEndpointStatus)
           (PlatformStatus.mk (Some blankEndpointStatus)) blankEndpointStatus
           [AWSServiceEndpoint.mk "ec2" "https://old.example"]
           (AWSServiceEndpoint.mk "ec2" "") []); try reflexivity.
  intros e He. by apply elem_of_nil in He.
Defined.

(** X3.  Unlike the CA bundle hook, the three infrastructure hooks never
    complain about a missing driver: on a deployment without a container
    named csi-driver each of them returns no error and leaves the
    deployment as it is, whatever region, tags and endpoints the
    infrastructure object holds. *)
Theorem infra_hooks_tolerate_missing_driver (infraLister : InfrastructureLister)
    (infra : Infrastructure.t) (d : Deployment.t) :
  infraLister "cluster" = inl infra ->
  ~ hasContainer "csi-driver" d ->
  withAWSRegion infraLister d = (d, None)
  /\ withCustomTags infraLister d = (d, None)
  /\ withCustomEndPoint infraLister d = (d, None).
Proof.
  intros Hl Hno.
  assert (Hnames : forall x, x ∈ deploymentContainers d ->
                     Container.Name x <> "csi-driver").
  { intros x Hx. apply isCSIDriver_false. by apply (no_csi_driver d). }
  unfold withAWSRegion, withCustomTags, withCustomEndPoint.
  change infrastructureName with "cluster". rewrite Hl.
  destruct (awsPlatformStatus infra) as [aws|]; [|done].
  rewrite !rangeUpdate_fmap, !fmap_onCSIDriver_none by done.
  rewrite rangeFirst_spec, updateFirst_none by exact (no_csi_driver d Hno).
  rewrite setDeploymentContainers_same.
  split_and!.
  - by destruct (_ =? _).
  - by destruct (_ =? _)%nat.
  - by destruct (_ =? _).
Qed.

Lemma infra_hooks_tolerate_missing_driver_witness :
  withAWSRegion (listerOf (awsInfra fullStatus)) noDriver = (noDriver, None)
  /\ withCustomTags (listerOf (awsInfra fullStatus)) noDriver = (noDriver, None)
  /\ withCustomEndPoint (listerOf (awsInfra fullStatus)) noDriver = (noDriver, None).
Proof.
  apply (infra_hooks_tolerate_missing_driver (listerOf (awsInfra fullStatus))
           (awsInfra fullStatus) noDriver).
  - reflexivity.
  - intros (c & Hc & Hn).
    unfold noDriver, deploymentContainers in Hc; simpl in Hc.
    apply list_elem_of_singleton in Hc as ->. discriminate Hn.
Defined.

(** X4.  A failed infrastructure lookup is not treated as absent data: each
    of the three infrastructure hooks hands back the lister's error as it
    is, not-found included, and leaves the deployment alone. *)
Theorem infra_lookup_error_propagates (infraLister : InfrastructureLister)
    (err : error) (d : Deployment.t) :
  infraLister "cluster" = inr err ->
  withAWSRegion infraLister d = (d, Some err)
  /\ withCustomTags infraLister d = (d, Some err)
  /\ withCustomEndPoint infraLister d = (d, Some err).
Proof.
  intros Hl. unfold withAWSRegion, withCustomTags, withCustomEndPoint.
  change infrastructureName with "cluster". by rewrite Hl.
Qed.

Lemma infra_lookup_error_propagates_witness :
  withAWSRegion failingInfraLister standaloneBase
  = (standaloneBase, Some (StatusNotFound "cluster")).
Proof.
  apply (infra_lookup_error_propagates failingInfraLister
           (StatusNotFound "cluster") standaloneBase).
  reflexivity.
Defined.

(** ** Errors of the CA bundle hook *)

(** X5.  When the lister fails with anything but not-found, the CA bundle
    hook leaves the deployment alone and returns the lister's error wrapped
    twice: once by [customAWSCABundle], naming the config map, and once by
    the hook. *)
Theorem ca_bundle_lookup_error_wrapped (isHypershift : bool)
    (lister : ConfigMapNamespaceLister) (err : error) (d : Deployment.t) :
  lister (caBundleConfigName isHypershift) = inr err ->
  IsNotFound err = false ->
  withCustomAWSCABundle isHypershift lister d
  = (d,
     Some (ErrorfW "could not determine if a custom CA bundle is in use"
             (ErrorfW
                ("failed to get the " +:+ caBundleConfigName isHypershift
                 +:+ " ConfigMap")
                err))).
Proof.
  intros Hl Hnf. unfold withCustomAWSCABundle, customAWSCABundle.
  by rewrite Hl, Hnf.
Qed.

Lemma ca_bundle_lookup_error_wrapped_witness :
  withCustomAWSCABundle true forbiddenLister standaloneBase
  = (standaloneBase,
     Some (ErrorfW "could not determine if a custom CA bundle is in use"
             (ErrorfW "failed to get the user-ca-bundle ConfigMap"
                (StatusError "forbidden")))).
Proof.
  apply (ca_bundle_lookup_error_wrapped true forbiddenLister
           (StatusError "forbidden") standaloneBase); reflexivity.
Defined.

(** X6.  Whatever the lister answers and whatever the deployment holds, an
    error returned by the CA bundle hook is never a not-found error, even
    looked at through its wrapping: a missing config map is always
    swallowed. *)
Theorem ca_bundle_never_reports_not_found (isHypershift : bool)
    (lister : ConfigMapNamespaceLister) (d : Deployment.t) (e : error) :
  snd (withCustomAWSCABundle isHypershift lister d) = Some e ->
  IsNotFound e = false.
Proof.
  unfold withCustomAWSCABundle, customAWSCABundle.
  destruct (lister (caBundleConfigName isHypershift)) as [cm|err].
  - destruct (ConfigMap.Data cm !! caBundleKey); [|discriminate].
    rewrite caBundleConfigName_nonempty.
    destruct (rangeFirst _ _ _); [discriminate|].
    by intros [= <-].
  - destruct (IsNotFound err) eqn:Hnf; [discriminate|].
    by intros [= <-].
Qed.

Lemma ca_bundle_never_reports_not_found_witness :
  IsNotFound missingCSIDriver = false.
Proof.
  apply (ca_bundle_never_reports_not_found false bundleLister noDriver).
  reflexivity.
Defined.

(** X7.  [customAWSCABundle] names a config map exactly when the lister
    finds it and its data has the key ca-bundle.pem, whatever the value
    under the key (an empty bundle counts); the name it returns is then
    the one it looked up, kube-cloud-config or, on hosted topology,
    user-ca-bundle. *)
Theorem customAWSCABundle_names_iff_key (isHypershift : bool)
    (lister : ConfigMapNamespaceLister) :
  (fst (customAWSCABundle isHypershift lister) <> ""
   <-> exists cm,
         lister (if isHypershift then "user-ca-bundle" else "kube-cloud-config")
         = inl cm
         /\ is_Some (ConfigMap.Data cm !! "ca-bundle.pem"))
  /\ (fst (customAWSCABundle isHypershift lister) <> "" ->
      customAWSCABundle isHypershift lister
      = (if isHypershift then "user-ca-bundle" else "kube-cloud-config", None)).
Proof.
  unfold customAWSCABundle.
  change (caBundleConfigName isHypershift)
    with (if isHypershift then "user-ca-bundle" else "kube-cloud-config").
  destruct (lister _) as [cm|err] eqn:Hl.
  - change caBundleKey with "ca-bundle.pem".
    destruct (ConfigMap.Data cm !! "ca-bundle.pem") as [pem|] eqn:Hk; simpl.
    + split; [|done]. split.
      * intros _. exists cm. by rewrite Hk.
      * intros _. by destruct isHypershift.
    + split; [|done]. split; [done|].
      intros (cm' & [= <-] & Hs). rewrite Hk in Hs. by destruct Hs.
  - split.
    + split.
      * by destruct (IsNotFound err).
      * by intros (cm & [=] & _).
    + by destruct (IsNotFound err).
Qed.

(** ** Region and tags in general *)

Lemma foldl_tagPairStep acc tags :
  foldl tagPairStep acc tags = acc ++ (tagPair <$> tags).
Proof.
  revert acc. induction tags as [|t tags IH]; intros acc; simpl.
  - by rewrite app_nil_r.
  - rewrite IH. unfold tagPairStep. fold (tagPair t). by rewrite <- app_assoc.
Qed.

(** X8.  For any non-empty region the region hook succeeds, appends
    AWS_REGION with that region to the environment of every container
    named csi-driver and to no other, and changes nothing else: the
    containers keep their number, order and names, and the volumes,
    namespace, replicas and priority class stay as they were. *)
Theorem region_appended_to_every_driver (infraLister : InfrastructureLister)
    (infra : Infrastructure.t) (ps : PlatformStatus.t)
    (aws : AWSPlatformStatus.t) (d : Deployment.t) :
  infraLister "cluster" = inl infra ->
  Infrastructure.PlatformStatus infra = Some ps ->
  PlatformStatus.AWS ps = Some aws ->
  AWSPlatformStatus.Region aws <> "" ->
  exists cs',
    withAWSRegion infraLister d
    = (Deployment.mk (Deployment.Namespace d) (Deployment.Replicas d)
         (PodSpec.mk (deploymentVolumes d) cs'
            (PodSpec.PriorityClassName (Deployment.Spec d))),
       None)
    /\ Container.Name <$> cs' = Container.Name <$> deploymentContainers d
    /\ forall i c, deploymentContainers d !! i = Some c ->
         cs' !! i
         = Some (if Container.Name c =? "csi-driver"
                 then Container.mk (Container.Name c) (Container.Image c)
                        (Container.ImagePullPolicy c) (Container.Command c)
                        (Container.Args c)
                        (Container.Env c
                         ++ [EnvVar.mk "AWS_REGION" (AWSPlatformStatus.Region aws)])
                        (Container.VolumeMounts c) (Container.Requests c)
                 else c).
Proof.
  intros Hl Hps Haws Hregion. eexists. split_and!.
  - rewrite (withAWSRegion_set _ _ Hl _ (awsPlatformStatus_Some _ _ _ Hps Haws))
      by done.
    reflexivity.
  - rewrite <- list_fmap_compose. apply list_fmap_ext.
    intros i c _. simpl. by apply onCSIDriver_Name.
  - intros i c Hc. rewrite list_lookup_fmap, Hc. simpl. f_equal.
    unfold onCSIDriver, isCSIDriver. by destruct (_ =? _).
Qed.

Lemma region_appended_to_every_driver_witness :
  exists cs',
    withAWSRegion (listerOf (awsInfra fullStatus)) standaloneBase
    = (Deployment.mk "" None (PodSpec.mk [projected "socket-dir"] cs' ""), None)
    /\ Container.Name <$> cs' = ["csi-provisioner"; "csi-driver"; "csi-driver"].
Proof.
  destruct (region_appended_to_every_driver (listerOf (awsInfra fullStatus))
              (awsInfra fullStatus) (PlatformStatus.mk (Some fullStatus))
              fullStatus standaloneBase)
    as (cs' & Hrun & Hnames & _); try reflexivity.
  - discriminate.
  - exists cs'. split; assumption.
Defined.

Lemma customAWSCABundle_names_iff_key_witness :
  customAWSCABundle false bundleLister = ("kube-cloud-config", None).
Proof.
  destruct (customAWSCABundle_names_iff_key false bundleLister) as [_ Hname].
  apply Hname. discriminate.
Defined.

(** X9.  For any non-empty tag list the tags hook succeeds and appends one
    argument, whatever the number of tags, to every container named
    csi-driver and to no other: --extra-tags= followed by the key=value
    pairs of the tags, in tag-list order, joined by commas.  It changes
    nothing else: the containers keep their number, order and names, and
    the volumes, namespace, replicas and priority class stay as they
    were. *)
Theorem tags_joined_in_order (infraLister : InfrastructureLister)
    (infra : Infrastructure.t) (ps : PlatformStatus.t)
    (aws : AWSPlatformStatus.t) (d : Deployment.t) :
  infraLister "cluster" = inl infra ->
  Infrastructure.PlatformStatus infra = Some ps ->
  PlatformStatus.AWS ps = Some aws ->
  AWSPlatformStatus.ResourceTags aws <> [] ->
  exists cs',
    withCustomTags infraLister d
    = (Deployment.mk (Deployment.Namespace d) (Deployment.Replicas d)
         (PodSpec.mk (deploymentVolumes d) cs'
            (PodSpec.PriorityClassName (Deployment.Spec d))),
       None)
    /\ Container.Name <$> cs' = Container.Name <$> deploymentContainers d
    /\ forall i c, deploymentContainers d !! i = Some c ->
         cs' !! i
         = Some (if Container.Name c =? "csi-driver"
                 then Container.mk (Container.Name c) (Container.Image c)
                        (Container.ImagePullPolicy c) (Container.Command c)
                        (Container.Args c
                         ++ ["--extra-tags="
                             +:+ Join (tagPair <$> AWSPlatformStatus.ResourceTags aws) ","])
                        (Container.Env c) (Container.VolumeMounts c)
                        (Container.Requests c)
                 else c).
Proof.
  intros Hl Hps Haws Htags. eexists. split_and!.
  - rewrite (withCustomTags_set _ _ Hl _ (awsPlatformStatus_Some _ _ _ Hps Haws))
      by done.
    reflexivity.
  - rewrite <- list_fmap_compose. apply list_fmap_ext.
    intros i c _. simpl. by apply onCSIDriver_Name.
  - intros i c Hc. rewrite list_lookup_fmap, Hc. simpl. f_equal.
    unfold onCSIDriver, isCSIDriver. destruct (_ =? _); [|done]. simpl.
    unfold Container.appendArg, tagsArgument. by rewrite foldl_tagPairStep.
Qed.

Lemma tags_joined_in_order_witness :
  exists cs',
    withCustomTags (usEast1 twoTags) taggedBase
    = (Deployment.mk "" None (PodSpec.mk [] cs' ""), None)
    /\ Container.Name <$> cs' = ["csi-driver"]
    /\ cs' !! 0
       = Some (Container.mk "csi-driver" "" "" []
                 ["--extra-tags=k1=v1,k2=v2"; "--extra-tags=k1=v1,k2=v2"] [] [] ∅).
Proof.
  destruct (tags_joined_in_order (usEast1 twoTags)
              (awsInfra (AWSPlatformStatus.mk "us-east-1" [] twoTags))
              (PlatformStatus.mk (Some (AWSPlatformStatus.mk "us-east-1" [] twoTags)))
              (AWSPlatformStatus.mk "us-east-1" [] twoTags) taggedBase)
    as (cs' & Hrun & Hnames & Hat); try reflexivity.
  - discriminate.
  - exists cs'. split; [exact Hrun|]. split; [exact Hnames|].
    apply (Hat 0 (Container.mk "csi-driver" "" "" []
                    ["--extra-tags=k1=v1,k2=v2"] [] [] ∅)).
    reflexivity.
Defined.

(** X10.  Keys and values go into the tags argument unescaped, so the
    argument does not determine the tags: one tag whose value contains a
    comma and an equals sign yields the same argument as two tags. *)
Theorem tags_argument_not_escaped (k1 v1 k2 v2 : string) :
  tagsArgument [AWSResourceTag.mk k1 (v1 +:+ "," +:+ k2 +:+ "=" +:+ v2)]
  = tagsArgument [AWSResourceTag.mk k1 v1; AWSResourceTag.mk k2 v2].
Proof.
  rewrite tagsArgument_two. reflexivity.
Qed.

Lemma onCSIDriver_env_arg e a c :
  onCSIDriver (Container.appendEnv e) (onCSIDriver (Container.appendArg a) c)
  = onCSIDriver (Container.appendArg a) (onCSIDriver (Container.appendEnv e) c).
Proof.
  unfold onCSIDriver, isCSIDriver.
  destruct (Container.Name c =? "csi-driver") eqn:Hn; simpl; by rewrite Hn.
Qed.

(** X11.  The region hook and the tags hook commute: run in either order on
    any deployment with any lister they leave the same deployment and the
    same error. *)
Theorem region_and_tags_commute (infraLister : InfrastructureLister)
    (d : Deployment.t) :
  withCustomTags infraLister (fst (withAWSRegion infraLister d))
  = withAWSRegion infraLister (fst (withCustomTags infraLister d)).
Proof.
  unfold withAWSRegion, withCustomTags.
  destruct (infraLister infrastructureName) as [infra|err]; [|done].
  destruct (awsPlatformStatus infra) as [aws|]; [|done].
  destruct (AWSPlatformStatus.Region aws =? "");
    destruct (length (AWSPlatformStatus.ResourceTags aws) =? 0)%nat;
    simpl; try reflexivity.
  rewrite !rangeUpdate_fmap.
  unfold setDeploymentContainers, deploymentContainers. simpl.
  rewrite <- !list_fmap_compose.
  rewrite (list_fmap_ext _
             (onCSIDriver
                (Container.appendEnv
                   (EnvVar.mk "AWS_REGION" (AWSPlatformStatus.Region aws)))
              ∘ onCSIDriver
                  (Container.appendArg
                     (tagsArgument (AWSPlatformStatus.ResourceTags aws))))
             (PodSpec.Containers (Deployment.Spec d))); [done|].
  intros i c _. simpl. symmetry. apply onCSIDriver_env_arg.
Qed.

(** X12.  None of the hosted, CA bundle, region, tags and endpoint hooks
    reads or writes the deployment's namespace, so the namespace hook can
    run before or after any of them with the same outcome. *)
Theorem hooks_ignore_namespace (isHypershift : bool) (img : string)
    (replicasHook : DeploymentHookFunc)
    (cloudConfigLister : ConfigMapNamespaceLister)
    (infraLister : InfrastructureLister) :
  ignoresNamespace (withHypershiftDeploymentHook isHypershift img)
  /\ ignoresNamespace (withHypershiftReplicasHook true replicasHook)
  /\ ignoresNamespace (withCustomAWSCABundle isHypershift cloudConfigLister)
  /\ ignoresNamespace (withAWSRegion infraLister)
  /\ ignoresNamespace (withCustomTags infraLister)
  /\ ignoresNamespace (withCustomEndPoint infraLister).
Proof.
  unfold ignoresNamespace. split_and!; intros namespace d.
  - unfold withHypershiftDeploymentHook. by destruct isHypershift.
  - reflexivity.
  - unfold withCustomAWSCABundle.
    destruct (customAWSCABundle _ _) as [configName [err|]]; [done|].
    destruct (configName =? ""); [done|].
    change (deploymentContainers
              (setDeploymentVolumes
                 (deploymentVolumes (Deployment.setNamespace namespace d)
                  ++ [caBundleVolume configName])
                 (Deployment.setNamespace namespace d)))
      with (deploymentContainers
              (setDeploymentVolumes
                 (deploymentVolumes d ++ [caBundleVolume configName]) d)).
    by destruct (rangeFirst _ _ _).
  - unfold withAWSRegion.
    destruct (infraLister _) as [infra|err]; [|done].
    destruct (awsPlatformStatus infra) as [aws|]; [|done].
    by destruct (_ =? _).
  - unfold withCustomTags.
    destruct (infraLister _) as [infra|err]; [|done].
    destruct (awsPlatformStatus infra) as [aws|]; [|done].
    by destruct (_ =? _)%nat.
  - unfold withCustomEndPoint.
    destruct (infraLister _) as [infra|err]; [|done].
    destruct (awsPlatformStatus infra) as [aws|]; [|done].
    destruct (_ =? _); [done|].
    change (deploymentContainers (Deployment.setNamespace namespace d))
      with (deploymentContainers d).
    by destruct (rangeFirst _ _ _).
Qed.

(** ** The hosted hook in general *)

Lemma isKubeRbacProxy_true name :
  isKubeRbacProxy name = true <-> name ∈ kubeRbacProxyNames.
Proof.
  unfold isKubeRbacProxy, kubeRbacProxyNames.
  rewrite !orb_true_iff, !String.eqb_eq, !elem_of_cons, elem_of_nil. tauto.
Qed.

Lemma isKubeRbacProxy_false name :
  isKubeRbacProxy name = false <-> name ∉ kubeRbacProxyNames.
Proof.
  rewrite <- isKubeRbacProxy_true. by destruct (isKubeRbacProxy name).
Qed.

Lemma isCSISidecar_true name :
  isCSISidecar name = true <-> name ∈ csiSidecarNames.
Proof.
  unfold isCSISidecar, csiSidecarNames.
  rewrite !orb_true_iff, !String.eqb_eq, !elem_of_cons, elem_of_nil. tauto.
Qed.

Section Counting.
Context {A : Type} (P : A -> Prop) `{!forall x, Decision (P x)}.

Lemma count_fmap (f : A -> A) (l : list A) :
  (forall x, P (f x) <-> P x) ->
  length (filter P (f <$> l)) = length (filter P l).
Proof.
  intros Hf. induction l as [|x l IH]; [done|].
  rewrite fmap_cons, !filter_cons.
  destruct (decide (P (f x))) as [Hy|Hn], (decide (P x)) as [Hy'|Hn'];
    simpl; rewrite ?IH; try done.
  - exfalso. by apply Hn', Hf.
  - exfalso. by apply Hn, Hf.
Qed.

Lemma count_deleteFirst (hit : A -> bool) (l : list A) :
  (forall x, hit x = true -> ~ P x) ->
  length (filter P (deleteFirst hit l)) = length (filter P l).
Proof.
  intros Hhit. induction l as [|x l IH]; [done|]. simpl.
  destruct (hit x) eqn:Hx.
  - by rewrite filter_cons_False by (by apply Hhit).
  - rewrite !filter_cons. destruct (decide (P x)); simpl; by rewrite IH.
Qed.

Lemma count_filter (Q : A -> Prop) `{!forall x, Decision (Q x)} (l : list A) :
  (forall x, P x -> Q x) ->
  length (filter P (filter Q l)) = length (filter P l).
Proof.
  intros HPQ. induction l as [|x l IH]; [done|].
  rewrite (filter_cons Q), (filter_cons P x l).
  destruct (decide (Q x)) as [Hq|Hq].
  - rewrite filter_cons. destruct (decide (P x)); simpl; by rewrite IH.
  - destruct (decide (P x)) as [Hp|Hp]; [by apply HPQ in Hp|done].
Qed.
End Counting.

Lemma deleteFirst_snoc {A} (hit : A -> bool) (l : list A) (x : A) :
  hit x = false -> deleteFirst hit (l ++ [x]) = deleteFirst hit l ++ [x].
Proof.
  intros Hx. induction l as [|y l IH]; simpl.
  - by rewrite Hx.
  - destruct (hit y); [done|]. by rewrite IH.
Qed.

(** X13.  Under hosted topology the container list the hook leaves is the
    input list without the five kube-rbac-proxy containers, order kept,
    with the kubeconfig argument, variable and mount appended to each of
    the four CSI sidecars (provisioner, attacher, snapshotter, resizer) and
    every other container untouched, followed by the token minter. *)
Theorem hosted_containers_shape (img : string) (d : Deployment.t) :
  deploymentContainers (fst (withHypershiftDeploymentHook true img d))
  = ((fun c => if bool_decide (Container.Name c ∈ csiSidecarNames)
               then injectKubeconfig c else c)
     <$> filter (fun c => Container.Name c ∉ kubeRbacProxyNames)
           (deploymentContainers d))
    ++ [tokenMinter img].
Proof.
  rewrite withHypershiftDeploymentHook_true.
  change (deploymentContainers (fst (?x, None))) with (deploymentContainers x).
  unfold deploymentContainers at 1. simpl.
  rewrite hypershiftContainers_spec. f_equal.
  rewrite (list_filter_iff keptContainer
             (fun c => Container.Name c ∉ kubeRbacProxyNames))
    by (intros c; apply isKubeRbacProxy_false).
  apply list_fmap_ext. intros i c _. unfold kubeconfigBody.
  destruct (isCSISidecar (Container.Name c)) eqn:Hs.
  - apply isCSISidecar_true in Hs. by rewrite bool_decide_eq_true_2.
  - rewrite bool_decide_eq_false_2; [done|].
    intros Hin%isCSISidecar_true. congruence.
Qed.

Lemma hypershift_keeps_csi_driver (img : string) (d : Deployment.t) :
  hasContainer "csi-driver" d ->
  hasContainer "csi-driver" (fst (withHypershiftDeploymentHook true img d)).
Proof.
  intros (c & Hc & Hn). exists (kubeconfigBody c).
  split; [|by rewrite kubeconfigBody_Name].
  change (deploymentContainers (fst (withHypershiftDeploymentHook true img d)))
    with (hypershiftContainers img (deploymentContainers d)).
  apply hypershiftContainers_elem_of. left. exists c.
  split_and!; [done| |done]. unfold keptContainer. by rewrite Hn.
Qed.

(** X14.  The hosted hook removes every container named like one of the
    five kube-rbac-proxies, and for any other name except token-minter the
    result has a container of that name exactly when the input had one;
    in particular the csi-driver container the later hooks look for
    survives. *)
Theorem hosted_keeps_other_containers (img : string) (d : Deployment.t)
    (name : string) :
  let d' := fst (withHypershiftDeploymentHook true img d) in
  (name ∈ kubeRbacProxyNames -> ~ hasContainer name d')
  /\ (name ∉ kubeRbacProxyNames -> name <> "token-minter" ->
      (hasContainer name d <-> hasContainer name d')).
Proof.
  intros d'.
  assert (Hcs : deploymentContainers d'
                = hypershiftContainers img (deploymentContainers d))
    by reflexivity.
  unfold hasContainer. rewrite Hcs. split.
  - intros Hname (c & Hc & Hn).
    apply hypershiftContainers_elem_of in Hc as [(c0 & _ & Hk & ->) | ->].
    + rewrite kubeconfigBody_Name in Hn. subst name.
      by apply isKubeRbacProxy_false in Hk.
    + subst name. by apply isKubeRbacProxy_true in Hname.
  - intros Hname Htm. split.
    + intros (c & Hc & Hn). exists (kubeconfigBody c).
      split; [|by rewrite kubeconfigBody_Name].
      apply hypershiftContainers_elem_of. left. exists c.
      split_and!; [done| |done].
      apply isKubeRbacProxy_false. by rewrite Hn.
    + intros (c & Hc & Hn).
      apply hypershiftContainers_elem_of in Hc as [(c0 & Hc0 & _ & ->) | ->].
      * rewrite kubeconfigBody_Name in Hn. by exists c0.
      * by subst name.
Qed.

Lemma hosted_keeps_other_containers_witness :
  hasContainer "csi-driver" (fst (withHypershiftDeploymentHook true "img" hostedBase))
  /\ ~ hasContainer "driver-kube-rbac-proxy"
         (fst (withHypershiftDeploymentHook true "img" hostedBase)).
Proof.
  destruct (hosted_keeps_other_containers "img" hostedBase "csi-driver")
    as [_ Hkeep].
  destruct (hosted_keeps_other_containers "img" hostedBase "driver-kube-rbac-proxy")
    as [Hdrop _].
  split.
  - apply Hkeep.
    + apply isKubeRbacProxy_false. reflexivity.
    + discriminate.
    + exists (named "csi-driver"). split; [apply list_elem_of_here|reflexivity].
  - apply Hdrop, isKubeRbacProxy_true. reflexivity.
Defined.

Lemma hypershiftVolumes_snoc vols :
  hypershiftVolumes vols
  = deleteFirst isMetricsServingCert (boundSaTokenBody <$> vols)
    ++ [hostedKubeconfigVolume].
Proof.
  rewrite hypershiftVolumes_spec, fmap_app. simpl.
  by apply deleteFirst_snoc.
Qed.

(** X15.  Under hosted topology the hosted-kubeconfig volume, backed by the
    secret admin-kubeconfig, always ends up as the last volume, so the
    mounts the hook adds always have their volume.  For any other name
    except metrics-serving-cert the result has a volume of that name
    exactly when the input had one: the hook does not create the
    bound-sa-token volume that the token minter mounts. *)
Theorem hosted_volumes_kept (img : string) (d : Deployment.t) (name : string) :
  let d' := fst (withHypershiftDeploymentHook true img d) in
  last (deploymentVolumes d')
  = Some (Volume.mk "hosted-kubeconfig"
            (VolumeSource.mk (Some "admin-kubeconfig") None None None))
  /\ (name <> "metrics-serving-cert" -> name <> "hosted-kubeconfig" ->
      (hasVolume name d <-> hasVolume name d')).
Proof.
  intros d'.
  assert (Hvs : deploymentVolumes d' = hypershiftVolumes (deploymentVolumes d))
    by reflexivity.
  unfold hasVolume. rewrite Hvs. split.
  - rewrite hypershiftVolumes_snoc. apply last_snoc.
  - intros Hmsc Hhk. split.
    + intros (v & Hv & Hn). exists (boundSaTokenBody v).
      split; [|by rewrite boundSaTokenBody_Name].
      apply hypershiftVolumes_keeps; [done|].
      apply isMetricsServingCert_false. by rewrite Hn.
    + intros (v & Hv & Hn).
      apply hypershiftVolumes_elem_of in Hv as [-> | (v0 & Hv0 & ->)].
      * by subst name.
      * rewrite boundSaTokenBody_Name in Hn. by exists v0.
Qed.

Lemma hosted_volumes_kept_witness :
  ~ hasVolume "bound-sa-token"
      (fst (withHypershiftDeploymentHook true "img" noDriver)).
Proof.
  destruct (hosted_volumes_kept "img" noDriver "bound-sa-token") as [_ Hiff].
  intros Hhas. apply Hiff in Hhas; [|discriminate|discriminate].
  destruct Hhas as (v & Hv & Hn).
  unfold noDriver, deploymentVolumes in Hv; simpl in Hv.
  apply list_elem_of_singleton in Hv as ->. discriminate Hn.
Defined.

(** X16.  The hosted hook is not idempotent: each run adds one more
    container named token-minter and one more volume named
    hosted-kubeconfig, whatever the deployment already holds. *)
Theorem hosted_hook_accumulates (img : string) (d : Deployment.t) :
  let d' := fst (withHypershiftDeploymentHook true img d) in
  containersNamed "token-minter" (deploymentContainers d')
  = S (containersNamed "token-minter" (deploymentContainers d))
  /\ volumesNamed "hosted-kubeconfig" (deploymentVolumes d')
     = S (volumesNamed "hosted-kubeconfig" (deploymentVolumes d)).
Proof.
  intros d'.
  assert (Hcs : deploymentContainers d'
                = hypershiftContainers img (deploymentContainers d))
    by reflexivity.
  assert (Hvs : deploymentVolumes d' = hypershiftVolumes (deploymentVolumes d))
    by reflexivity.
  rewrite Hcs, Hvs. unfold containersNamed, volumesNamed. split.
  - rewrite hypershiftContainers_spec, filter_app, length_app.
    rewrite count_fmap by (intros c; by rewrite kubeconfigBody_Name).
    rewrite count_filter.
    + rewrite filter_cons_True by done. simpl. lia.
    + intros c Hn. unfold keptContainer. by rewrite Hn.
  - rewrite hypershiftVolumes_snoc, filter_app, length_app.
    rewrite count_deleteFirst.
    + rewrite count_fmap by (intros v; by rewrite boundSaTokenBody_Name).
      rewrite filter_cons_True by done. simpl. lia.
    + intros v Hv%isMetricsServingCert_true Hn. congruence.
Qed.

(** ** The standalone hooks in source order *)

(** X17.  On a standalone cluster with a CA bundle, a region, tags and an
    ec2 endpoint configured, the four hooks run in the order of the
    controller's hook list (CA bundle, region, tags, endpoint) all succeed.
    The first csi-driver container ends with AWS_CA_BUNDLE, AWS_REGION and
    AWS_EC2_ENDPOINT appended to its environment in that order, the tags
    argument appended to its arguments and the ca-bundle mount appended to
    its mounts; later csi-driver containers get the region and the tags
    only; containers before it are untouched; the ca-bundle volume is the
    one volume added. *)
Theorem standalone_hooks_in_order (cloudConfigLister : ConfigMapNamespaceLister)
    (infraLister : InfrastructureLister) (cm : ConfigMap.t) (pem : string)
    (infra : Infrastructure.t) (ps : PlatformStatus.t)
    (aws : AWSPlatformStatus.t)
    (eps1 : list AWSServiceEndpoint.t) (ep : AWSServiceEndpoint.t)
    (eps2 : list AWSServiceEndpoint.t)
    (d : Deployment.t) (l1 : list Container.t) (c : Container.t)
    (l2 : list Container.t) :
  cloudConfigLister "kube-cloud-config" = inl cm ->
  ConfigMap.Data cm !! "ca-bundle.pem" = Some pem ->
  infraLister "cluster" = inl infra ->
  Infrastructure.PlatformStatus infra = Some ps ->
  PlatformStatus.AWS ps = Some aws ->
  AWSPlatformStatus.Region aws <> "" ->
  AWSPlatformStatus.ResourceTags aws <> [] ->
  AWSPlatformStatus.ServiceEndpoints aws = eps1 ++ ep :: eps2 ->
  AWSServiceEndpoint.Name ep = "ec2" ->
  (forall e, e ∈ eps2 -> AWSServiceEndpoint.Name e <> "ec2") ->
  AWSServiceEndpoint.URL ep <> "" ->
  deploymentContainers d = l1 ++ c :: l2 ->
  (forall x, x ∈ l1 -> Container.Name x <> "csi-driver") ->
  Container.Name c = "csi-driver" ->
  let region := EnvVar.mk "AWS_REGION" (AWSPlatformStatus.Region aws) in
  let tags :=
    "--extra-tags=" +:+ Join (tagPair <$> AWSPlatformStatus.ResourceTags aws) "," in
  exists d1 d2 d3,
    withCustomAWSCABundle false cloudConfigLister d = (d1, None)
    /\ withAWSRegion infraLister d1 = (d2, None)
    /\ withCustomTags infraLister d2 = (d3, None)
    /\ withCustomEndPoint infraLister d3
       = (Deployment.mk (Deployment.Namespace d) (Deployment.Replicas d)
            (PodSpec.mk
               (deploymentVolumes d
                ++ [Volume.mk "ca-bundle"
                      (VolumeSource.mk None None (Some "kube-cloud-config") None)])
               (l1
                ++ Container.mk (Container.Name c) (Container.Image c)
                     (Container.ImagePullPolicy c) (Container.Command c)
                     (Container.Args c ++ [tags])
                     (Container.Env c
                      ++ [EnvVar.mk "AWS_CA_BUNDLE" "/etc/ca/ca-bundle.pem";
                          region;
                          EnvVar.mk "AWS_EC2_ENDPOINT" (AWSServiceEndpoint.URL ep)])
                     (Container.VolumeMounts c
                      ++ [VolumeMount.mk "ca-bundle" "/etc/ca" true])
                     (Container.Requests c)
                   :: (onCSIDriver (Container.appendArg tags)
                       <$> (onCSIDriver (Container.appendEnv region) <$> l2)))
               (PodSpec.PriorityClassName (Deployment.Spec d))),
          None).
Proof.
  intros Hcm Hk Hl Hps Haws Hregion Htags Heps Hep Heps2 Hurl Hcs Hl1 Hc
    region tags.
  pose proof (awsPlatformStatus_Some _ _ _ Hps Haws) as Hs.
  assert (Hnil : forall x, x ∈ l1 -> isCSIDriver x = false)
    by (intros x Hx; apply isCSIDriver_false; auto).
  assert (Hhit : forall x, Container.Name x = "csi-driver" -> isCSIDriver x = true)
    by (intros x Hx; by apply isCSIDriver_true).
  do 3 eexists. split_and!.
  - unfold withCustomAWSCABundle.
    rewrite (customAWSCABundle_found false _ _ _ Hcm Hk).
    change (caBundleConfigName false =? "") with false. simpl.
    rewrite rangeFirst_spec.
    change (deploymentContainers (setDeploymentVolumes _ d))
      with (deploymentContainers d).
    rewrite Hcs, updateFirst_split by auto. reflexivity.
  - rewrite (withAWSRegion_set _ _ Hl _ Hs) by done. reflexivity.
  - rewrite (withCustomTags_set _ _ Hl _ Hs) by done. reflexivity.
  - unfold withCustomEndPoint. change infrastructureName with "cluster".
    rewrite Hl, Hs, Heps, foldl_ec2Step_last by done.
    apply String.eqb_neq in Hurl. rewrite Hurl.
    rewrite rangeFirst_spec.
    unfold deploymentContainers, setDeploymentContainers; simpl.
    rewrite !fmap_app, !fmap_cons.
    rewrite !(fmap_onCSIDriver_none _ l1) by done.
    rewrite (onCSIDriver_hit _ (caBundleBody c)) by done.
    rewrite (onCSIDriver_hit _ (Container.appendEnv _ (caBundleBody c))) by done.
    rewrite updateFirst_split by (auto; by apply Hhit).
    unfold tagsArgument. rewrite foldl_tagPairStep.
    unfold caBundleBody, Container.appendEnv, Container.appendArg,
      Container.appendVolumeMount. simpl.
    rewrite <- !app_assoc. reflexivity.
Qed.

Lemma standalone_hooks_in_order_witness :
  exists d1 d2 d3 d4,
    withCustomAWSCABundle false bundleLister standaloneBase = (d1, None)
    /\ withAWSRegion (listerOf (awsInfra fullStatus)) d1 = (d2, None)
    /\ withCustomTags (listerOf (awsInfra fullStatus)) d2 = (d3, None)
    /\ withCustomEndPoint (listerOf (awsInfra fullStatus)) d3 = (d4, None).
Proof.
  destruct (standalone_hooks_in_order bundleLister (listerOf (awsInfra fullStatus))
              (ConfigMap.mk (<["ca-bundle.pem" := "PEM"]> ∅)) "PEM"
              (awsInfra fullStatus) (PlatformStatus.mk (Some fullStatus)) fullStatus
              [AWSServiceEndpoint.mk "ec2" "https://old.example";
               AWSServiceEndpoint.mk "s3" "https://s3.example"]
              (AWSServiceEndpoint.mk "ec2" "https://ec2.example") []
              standaloneBase [named "csi-provisioner"] (named "csi-driver")
              [named "csi-driver"])
    as (d1 & d2 & d3 & H1 & H2 & H3 & H4); try reflexivity; try discriminate.
  - intros e He. by apply elem_of_nil in He.
  - intros x Hx. apply list_elem_of_singleton in Hx as ->. discriminate.
  - exists d1, d2, d3. eexists. split_and!; eassumption.
Defined.

(** ** Static assets with the namespace filled in *)

Section Replace.
Variables (x : Ascii.ascii) (p new : string).

Lemma replaceFrom_skip (q rest : string) :
  replaceFrom (String x p) new (String.length q) (q +:+ rest)
  = replaceFrom (String x p) new 0 rest.
Proof.
  induction q as [|y q IH]; [done|]. rewrite append_cons. exact IH.
Qed.

Lemma replaceFrom_match (rest : string) :
  replaceFrom (String x p) new 0 (String x p +:+ rest)
  = new +:+ replaceFrom (String x p) new 0 rest.
Proof.
  rewrite append_cons.
  change (replaceFrom (String x p) new 0 (String x (p +:+ rest)))
    with (if String.prefix (String x p) (String x (p +:+ rest))
          then new +:+ replaceFrom (String x p) new
                         (String.length (String x p) - 1) (p +:+ rest)
          else String x (replaceFrom (String x p) new 0 (p +:+ rest))).
  rewrite <- append_cons, prefix_append.
  replace (String.length (String x p) - 1) with (String.length p)
    by (simpl; lia).
  by rewrite replaceFrom_skip.
Qed.

Lemma replaceFrom_clean (a rest : string) :
  mentions x a = false ->
  replaceFrom (String x p) new 0 (a +:+ rest)
  = a +:+ replaceFrom (String x p) new 0 rest.
Proof.
  induction a as [|y a IH]; intros Ha; [done|].
  simpl in Ha. destruct (Ascii.ascii_dec x y) as [|Hxy]; [done|].
  rewrite !append_cons.
  change (replaceFrom (String x p) new 0 (String y (a +:+ rest)))
    with (if String.prefix (String x p) (String y (a +:+ rest))
          then new +:+ replaceFrom (String x p) new
                         (String.length (String x p) - 1) (a +:+ rest)
          else String y (replaceFrom (String x p) new 0 (a +:+ rest))).
  simpl String.prefix.
  destruct (Ascii.ascii_dec x y); [done|]. by rewrite IH.
Qed.

Lemma replaceFrom_clean_all (a : string) :
  mentions x a = false -> replaceFrom (String x p) new 0 a = a.
Proof.
  induction a as [|y a IH]; intros Ha; [done|].
  simpl in Ha. destruct (Ascii.ascii_dec x y) as [|Hxy]; [done|].
  change (replaceFrom (String x p) new 0 (String y a))
    with (if String.prefix (String x p) (String y a)
          then new +:+ replaceFrom (String x p) new
                         (String.length (String x p) - 1) a
          else String y (replaceFrom (String x p) new 0 a)).
  simpl String.prefix.
  destruct (Ascii.ascii_dec x y); [done|]. by rewrite IH.
Qed.
End Replace.

Example dollar_sign : String dollar "{NAMESPACE}" = "${NAMESPACE}".
Proof. reflexivity. Qed.

Example ReplaceAll_twice :
  ReplaceAll "ns: ${NAMESPACE}, again ${NAMESPACE}!" "${NAMESPACE}" "kube"
  = "ns: kube, again kube!".
Proof. reflexivity. Qed.

Example ReplaceAll_partial :
  ReplaceAll "${NAMESPAC} $${NAMESPACE}" "${NAMESPACE}" "kube"
  = "${NAMESPAC} $kube".
Proof. reflexivity. Qed.

(** X18.  An asset without a dollar sign comes back from
    [assetWithNamespaceFunc] byte for byte, with no error, whatever the
    namespace. *)
Theorem asset_without_placeholder_unchanged (ReadFile : string -> string + error)
    (namespace name content : string) :
  ReadFile name = inl content ->
  mentions dollar content = false ->
  assetWithNamespaceFunc ReadFile namespace name = Returned (content, None).
Proof.
  intros Hr Hc. unfold assetWithNamespaceFunc, ReplaceAll. rewrite Hr.
  by rewrite replaceFrom_clean_all.
Qed.

Lemma asset_without_placeholder_unchanged_witness :
  assetWithNamespaceFunc (fun _ => inl "kind: ServiceAccount") "kube" "sa.yaml"
  = Returned ("kind: ServiceAccount", None).
Proof.
  apply (asset_without_placeholder_unchanged
           (fun _ => inl "kind: ServiceAccount") "kube" "sa.yaml"
           "kind: ServiceAccount"); reflexivity.
Defined.

(** X19.  In an asset that reads [a], then the placeholder ${NAMESPACE},
    then [b], with no dollar sign in [a], the placeholder is replaced by
    the namespace and the replacement goes on in [b] only: the namespace
    just written is not scanned again, so a namespace that itself contains
    the placeholder stays as it is.  With no dollar sign in [b] either, the
    result is [a], the namespace, [b]. *)
Theorem asset_placeholder_replaced (ReadFile : string -> string + error)
    (namespace name a b : string) :
  ReadFile name = inl (a +:+ "${NAMESPACE}" +:+ b) ->
  mentions dollar a = false ->
  assetWithNamespaceFunc ReadFile namespace name
  = Returned (a +:+ namespace +:+ ReplaceAll b "${NAMESPACE}" namespace, None)
  /\ (mentions dollar b = false ->
      assetWithNamespaceFunc ReadFile namespace name
      = Returned (a +:+ namespace +:+ b, None)).
Proof.
  intros Hr Ha.
  assert (Hrun : assetWithNamespaceFunc ReadFile namespace name
    = Returned (a +:+ namespace +:+ ReplaceAll b "${NAMESPACE}" namespace, None)).
  { unfold assetWithNamespaceFunc, ReplaceAll. rewrite Hr.
    by rewrite replaceFrom_clean, replaceFrom_match. }
  split; [exact Hrun|].
  intros Hb. rewrite Hrun. unfold ReplaceAll.
  by rewrite replaceFrom_clean_all.
Qed.

Lemma asset_placeholder_replaced_witness :
  assetWithNamespaceFunc assetFiles "x${NAMESPACE}y" "controller_sa.yaml"
  = Returned ("namespace: x${NAMESPACE}y", None).
Proof.
  destruct (asset_placeholder_replaced assetFiles "x${NAMESPACE}y"
              "controller_sa.yaml" "namespace: " "" eq_refl eq_refl)
    as [_ Hclean].
  exact (Hclean eq_refl).
Defined.

(** ** When the CA bundle hook misses the driver *)

Lemma updateFirst_None_inv {A} (hit : A -> bool) (body : A -> A) (s : list A) :
  updateFirst hit body s = None -> forall x, x ∈ s -> hit x = false.
Proof.
  induction s as [|y s IH]; intros Hn x Hx.
  - by apply elem_of_nil in Hx.
  - simpl in Hn. destruct (hit y) eqn:Hy; [discriminate|].
    apply elem_of_cons in Hx as [-> | Hx]; [done|].
    apply IH; [|done]. by destruct (updateFirst hit body s).
Qed.

Lemma missing_driver_inv (isHypershift : bool)
    (lister : ConfigMapNamespaceLister) (d : Deployment.t) :
  snd (withCustomAWSCABundle isHypershift lister d) = Some missingCSIDriver ->
  ~ hasContainer "csi-driver" d.
Proof.
  unfold withCustomAWSCABundle.
  destruct (customAWSCABundle _ _) as [configName [err|]]; [discriminate|].
  destruct (configName =? ""); [discriminate|].
  rewrite rangeFirst_spec.
  change (deploymentContainers (setDeploymentVolumes _ d))
    with (deploymentContainers d).
  destruct (updateFirst isCSIDriver caBundleBody (deploymentContainers d))
    as [cs|] eqn:Hu; [discriminate|].
  intros _ (c & Hc & Hn%isCSIDriver_true).
  by rewrite (updateFirst_None_inv _ _ _ Hu c Hc) in Hn.
Qed.

(** X20.  The CA bundle hook returns the missing-container error exactly
    when a bundle is configured (the config map is found and has the key
    ca-bundle.pem) and the deployment has no container named csi-driver. *)
Theorem ca_bundle_missing_driver_iff (isHypershift : bool)
    (lister : ConfigMapNamespaceLister) (d : Deployment.t) :
  snd (withCustomAWSCABundle isHypershift lister d)
  = Some (Errorf "could not use custom CA bundle because the csi-driver container is missing from the deployment")
  <-> (exists cm,
         lister (if isHypershift then "user-ca-bundle" else "kube-cloud-config")
         = inl cm
         /\ is_Some (ConfigMap.Data cm !! "ca-bundle.pem"))
      /\ ~ hasContainer "csi-driver" d.
Proof.
  unfold withCustomAWSCABundle, customAWSCABundle.
  change (caBundleConfigName isHypershift)
    with (if isHypershift then "user-ca-bundle" else "kube-cloud-config").
  change caBundleKey with "ca-bundle.pem".
  destruct (lister _) as [cm|err] eqn:Hl.
  - destruct (ConfigMap.Data cm !! "ca-bundle.pem") as [pem|] eqn:Hk.
    + assert (Hne : ((if isHypershift then "user-ca-bundle" else "kube-cloud-config")
                     =? "") = false) by (by destruct isHypershift).
      rewrite Hne, rangeFirst_spec.
      change (deploymentContainers (setDeploymentVolumes _ d))
        with (deploymentContainers d).
      destruct (updateFirst isCSIDriver caBundleBody (deploymentContainers d))
        as [cs|] eqn:Hu; simpl.
      * split; [discriminate|]. intros [_ Hno].
        rewrite updateFirst_none in Hu; [discriminate|].
        by apply no_csi_driver.
      * split; [|done]. intros _. split.
        -- exists cm. by rewrite Hk.
        -- intros (c & Hc & Hn%isCSIDriver_true).
           by rewrite (updateFirst_None_inv _ _ _ Hu c Hc) in Hn.
    + simpl. split; [discriminate|].
      intros [(cm' & [= <-] & Hs) _]. rewrite Hk in Hs. by destruct Hs.
  - split.
    + by destruct (IsNotFound err).
    + by intros [(cm & [=] & _) _].
Qed.

(** X21.  Running the hosted hook first never makes the CA bundle hook
    miss the driver: on a deployment that has a container named
    csi-driver, the CA bundle hook applied to what the hosted hook leaves
    does not return the missing-container error, on either topology. *)
Theorem hosted_then_ca_bundle_finds_driver (isHypershift : bool) (img : string)
    (lister : ConfigMapNamespaceLister) (d : Deployment.t) :
  hasContainer "csi-driver" d ->
  snd (withCustomAWSCABundle isHypershift lister
         (fst (withHypershiftDeploymentHook isHypershift img d)))
  <> Some missingCSIDriver.
Proof.
  intros Hcsi Herr.
  apply missing_driver_inv in Herr. apply Herr.
  destruct isHypershift; [|exact Hcsi].
  by apply hypershift_keeps_csi_driver.
Qed.

Lemma hosted_then_ca_bundle_finds_driver_witness :
  snd (withCustomAWSCABundle true bundleLister
         (fst (withHypershiftDeploymentHook true "img" hostedBase)))
  <> Some missingCSIDriver.
Proof.
  apply (hosted_then_ca_bundle_finds_driver true "img" bundleLister hostedBase).
  exists (named "csi-driver"). split; [apply list_elem_of_here|reflexivity].
Defined.
